(** * Screen recorder pipeline: capture, convert, encode, mux

    A shallow embedding of the screen recorder example
    ([screencap.go], and the helper file holding [ImageRGBAtoAVFrame]
    and [NewH264EncoderCodec]).

    The codec and container library and the screen-capture primitive are
    collaborators whose answers cannot be computed from the sources.  Every
    function therefore takes, next to its Go arguments, the answers the
    collaborators give during the call (an "outcome" record or a script of
    events), and produces the list of collaborator calls it performs, in
    order, together with its Go result.  Diagnostics printed with [fmt] and
    [log] are not part of the model. *)

From Stdlib Require Import ZArith List Bool Lia String.
Import ListNotations.
Open Scope Z_scope.

(** ** Signed 64-bit arithmetic ([int64], [time.Duration]) *)

Module Int64.

Definition half : Z := 2 ^ 63.
Definition modulus : Z := 2 ^ 64.

Definition in_range (z : Z) : Prop := - half <= z < half.

(** Two's complement wrap-around of a mathematical integer. *)
Definition wrap (z : Z) : Z := (z + half) mod modulus - half.

Definition add (a b : Z) : Z := wrap (a + b).
Definition mul (a b : Z) : Z := wrap (a * b).

End Int64.

(** ** Signed 32-bit arithmetic (C's [int]) *)

Module Int32.

Definition half : Z := 2 ^ 31.
Definition modulus : Z := 2 ^ 32.

Definition in_range (z : Z) : Prop := - half <= z < half.

Definition wrap (z : Z) : Z := (z + half) mod modulus - half.

End Int32.

(** The conversion [C.int(n)] of a Go [int], by which the library's setters
    and [astiav.NewRational] store the integers they are given. *)
Definition CInt (n : Z) : Z := Int32.wrap n.

(** ** Data of the collaborators *)

(** Go [error] values.  [ErrEof] and [ErrEagain] are the two sentinels of the
    codec library the drain loop tests with [errors.Is]; [ErrNew] is
    [errors.New]; [ErrCode] stands for every other library or capture
    error. *)
Inductive Error : Type :=
| ErrEof
| ErrEagain
| ErrNew (msg : string)
| ErrCode (code : Z).

Definition is_ErrEof (e : Error) : bool :=
  match e with ErrEof => true | _ => false end.

Definition is_ErrEagain (e : Error) : bool :=
  match e with ErrEagain => true | _ => false end.

(** [astiav.Rational]: a numerator and a denominator, both C [int]s. *)
Record Rational : Type := mkRational { Num : Z; Den : Z }.

(** [astiav.NewRational(num, den)] stores its two Go [int]s as C [int]s. *)
Definition NewRational (num den : Z) : Rational :=
  mkRational (CInt num) (CInt den).

Arguments NewRational : simpl never.

Inductive PixelFormat : Type :=
| PixelFormatNone
| PixelFormatRgba
| PixelFormatYuv420P.

(** [*image.RGBA]: only the extent of its bounds is read by the code.  The
    bitmaps of the pipeline are screen captures; their extent is taken to
    fit a C [int], which is how the frames' [SetWidth] and [SetHeight] store
    it. *)
Record RGBA : Type := mkRGBA { Dx : Z; Dy : Z; Pix : list Z }.

(** The timestamp of a frame that was given none: the library's
    [AV_NOPTS_VALUE], the least [int64].  The conversion never sets the
    timestamp of the frame it returns. *)
Definition NoPtsValue : Z := - 2 ^ 63.

(** [*astiav.Frame]: the fields the code sets.  The sample planes are
    produced by the scaler and are not inspected by the code. *)
Record Frame : Type := mkFrame {
  Width : Z;
  Height : Z;
  FramePixelFormat : PixelFormat;
  Pts : Z
}.

Definition SetPts (f : Frame) (pts : Z) : Frame :=
  {| Width := Width f; Height := Height f;
     FramePixelFormat := FramePixelFormat f; Pts := pts |}.

(** [*astiav.Packet] as filled by [ReceivePacket]. *)
Record Packet : Type := mkPacket { PacketPts : Z; PacketData : list Z }.

(** [*astiav.CodecContext]: the parameters [NewH264EncoderCodec] sets.  The
    width and the height are C [int]s, the bit rate is a 64-bit integer, the
    flags are a bit mask. *)
Record CodecContext : Type := mkCodecContext {
  CtxWidth : Z;
  CtxHeight : Z;
  Framerate : Rational;
  TimeBase : Rational;
  CtxPixelFormat : PixelFormat;
  BitRate : Z;
  Flags : Z
}.

Inductive Codec : Type := CodecH264.

(** ** Go function bodies: calls, [defer] and early [return] *)

(** How a statement sequence ends: it falls through with a value, executes
    [return], panics, or is still blocked when the script of collaborator
    answers is used up. *)
Inductive Ending (R X : Type) : Type :=
| Next (x : X)
| Return (r : R)
| Panic
| Blocked.

Arguments Next {R X} x.
Arguments Return {R X} r.
Arguments Panic {R X}.
Arguments Blocked {R X}.

(** A statement sequence of a function with result type [R] over calls of
    type [Act]: the calls made, the calls deferred (the most recent first,
    the order in which Go runs them) and the ending. *)
Record Go (Act R X : Type) : Type := mkGo {
  calls : list Act;
  deferred : list Act;
  ending : Ending R X
}.

Arguments mkGo {Act R X} calls deferred ending.
Arguments calls {Act R X} g.
Arguments deferred {Act R X} g.
Arguments ending {Act R X} g.

Section GoMonad.
Context {Act R : Type}.

Definition pure {X} (x : X) : Go Act R X := mkGo [] [] (Next x).
Definition ret {X} (r : R) : Go Act R X := mkGo [] [] (Return r).
Definition panic {X} : Go Act R X := mkGo [] [] Panic.
Definition blocked {X} : Go Act R X := mkGo [] [] Blocked.
Definition call (a : Act) : Go Act R unit := mkGo [a] [] (Next tt).
Definition defer (a : Act) : Go Act R unit := mkGo [] [a] (Next tt).

Definition bind {X Y} (m : Go Act R X) (k : X -> Go Act R Y) : Go Act R Y :=
  match ending m with
  | Next x =>
      let n := k x in
      mkGo (calls m ++ calls n) (deferred n ++ deferred m) (ending n)
  | Return r => mkGo (calls m) (deferred m) (Return r)
  | Panic => mkGo (calls m) (deferred m) Panic
  | Blocked => mkGo (calls m) (deferred m) Blocked
  end.
End GoMonad.

Declare Scope go_scope.
Delimit Scope go_scope with go.
Notation "x <- m ;; k" := (bind m (fun x => k))
  (at level 61, m at next level, right associativity) : go_scope.
Notation "m ;; k" := (bind m (fun _ => k))
  (at level 61, right associativity) : go_scope.

(** The observable result of a call: how it ended. *)
Inductive Status (R : Type) : Type :=
| Returned (r : R)
| Panicked
| Running.

Arguments Returned {R} r.
Arguments Panicked {R}.
Arguments Running {R}.

Record Run (Act R : Type) : Type := mkRun {
  trace : list Act;
  status : Status R
}.

Arguments mkRun {Act R} trace status.
Arguments trace {Act R} r.
Arguments status {Act R} r.

(** Running a function body: when the body returns (or panics) the deferred
    calls run, last deferred first.  A body that is still blocked has run
    none of them. *)
Definition exec {Act R} (body : Go Act R R) : Run Act R :=
  match ending body with
  | Next r | Return r => mkRun (calls body ++ deferred body) (Returned r)
  | Panic => mkRun (calls body ++ deferred body) Panicked
  | Blocked => mkRun (calls body) Running
  end.

(** ** [ImageRGBAtoAVFrame]: packed RGBA bitmap to planar YUV 4:2:0 frame *)

(** The three objects the conversion allocates. *)
Inductive ConvObj : Type :=
| srcFrame
| coloredFrame
| swsCtx.

Definition ConvObj_eqb (a b : ConvObj) : bool :=
  match a, b with
  | srcFrame, srcFrame | coloredFrame, coloredFrame | swsCtx, swsCtx => true
  | _, _ => false
  end.

Inductive SoftwareScaleContextFlag : Type :=
| SoftwareScaleContextFlagBilinear.

(** Collaborator calls of the conversion, with the error each fallible one
    answered ([None] is Go's [nil]).  [astiav.AllocFrame] is taken to give a
    frame, as the code takes it. *)
Inductive ConvCall : Type :=
| AllocFrame (f : ConvObj)
| FrameFree (f : ConvObj)
| SetWidth (f : ConvObj) (w : Z)
| SetHeight (f : ConvObj) (h : Z)
| SetPixelFormat (f : ConvObj) (p : PixelFormat)
| AllocBuffer (f : ConvObj) (align : Z) (err : option Error)
| MakeWritable (f : ConvObj) (err : option Error)
| FromImage (f : ConvObj) (img : RGBA) (err : option Error)
| CreateSoftwareScaleContext
    (srcW srcH : Z) (srcFormat : PixelFormat)
    (dstW dstH : Z) (dstFormat : PixelFormat)
    (flags : SoftwareScaleContextFlag) (err : option Error)
| SwsFree
| ScaleFrame (src dst : ConvObj) (err : option Error).

(** The answers of the library during one conversion. *)
Record ConvOutcomes : Type := mkConvOutcomes {
  srcAllocBuffer : option Error;
  srcMakeWritable : option Error;
  srcFromImage : option Error;
  coloredAllocBuffer : option Error;
  createSws : option Error;
  scaleFrame : option Error
}.

(** The Go result pair: a frame pointer (nil is [None]) and an error. *)
Definition FrameResult : Type := (option Frame * option Error)%type.

(** [if err := ...; err != nil { return nil, err }] *)
Definition orReturnNil {Act} (err : option Error) : Go Act FrameResult unit :=
  match err with
  | Some e => ret (None, Some e)
  | None => pure tt
  end.

Definition ImageRGBAtoAVFrame_body (img : RGBA) (o : ConvOutcomes)
  : Go ConvCall FrameResult FrameResult :=
  (call (AllocFrame srcFrame) ;;
   defer (FrameFree srcFrame) ;;
   call (SetWidth srcFrame (Dx img)) ;;
   call (SetHeight srcFrame (Dy img)) ;;
   call (SetPixelFormat srcFrame PixelFormatRgba) ;;
   call (AllocBuffer srcFrame 1 (srcAllocBuffer o)) ;;
   orReturnNil (srcAllocBuffer o) ;;
   call (MakeWritable srcFrame (srcMakeWritable o)) ;;
   orReturnNil (srcMakeWritable o) ;;
   call (FromImage srcFrame img (srcFromImage o)) ;;
   orReturnNil (srcFromImage o) ;;
   call (AllocFrame coloredFrame) ;;
   call (SetWidth coloredFrame (Dx img)) ;;
   call (SetHeight coloredFrame (Dy img)) ;;
   call (SetPixelFormat coloredFrame PixelFormatYuv420P) ;;
   call (AllocBuffer coloredFrame 1 (coloredAllocBuffer o)) ;;
   orReturnNil (coloredAllocBuffer o) ;;
   call (CreateSoftwareScaleContext
           (Dx img) (Dy img) PixelFormatRgba
           (Dx img) (Dy img) PixelFormatYuv420P
           SoftwareScaleContextFlagBilinear (createSws o)) ;;
   orReturnNil (createSws o) ;;
   defer SwsFree ;;
   call (ScaleFrame srcFrame coloredFrame (scaleFrame o)) ;;
   orReturnNil (scaleFrame o) ;;
   ret (Some (mkFrame (Dx img) (Dy img) PixelFormatYuv420P NoPtsValue),
        None))%go.

Definition ImageRGBAtoAVFrame (img : RGBA) (o : ConvOutcomes)
  : Run ConvCall FrameResult :=
  exec (ImageRGBAtoAVFrame_body img o).

(** Which call brings an object to life, which one releases it. *)
Definition acquires (ob : ConvObj) (c : ConvCall) : bool :=
  match c with
  | AllocFrame f => ConvObj_eqb f ob
  | CreateSoftwareScaleContext _ _ _ _ _ _ _ None => ConvObj_eqb swsCtx ob
  | _ => false
  end.

Definition releases (ob : ConvObj) (c : ConvCall) : bool :=
  match c with
  | FrameFree f => ConvObj_eqb f ob
  | SwsFree => ConvObj_eqb swsCtx ob
  | _ => false
  end.

(** An object outlives the call when it was acquired and not released by the
    time the call has returned. *)
Definition outlives (t : list ConvCall) (ob : ConvObj) : bool :=
  existsb (acquires ob) t && negb (existsb (releases ob) t).

(** The frame handed to the caller, if any. *)
Definition returned_frame (r : Run ConvCall FrameResult) : option Frame :=
  match status r with
  | Returned (f, _) => f
  | _ => None
  end.

Definition returned_error (r : Run ConvCall FrameResult) : option Error :=
  match status r with
  | Returned (_, e) => e
  | _ => None
  end.

(** ** [NewH264EncoderCodec] *)

(** The answers of [astiav.FindEncoder(astiav.CodecIDH264)] and
    [astiav.AllocCodecContext(codec)]; [None] is a nil pointer.  The context
    comes with whatever defaults the library gives it. *)
Record CodecOutcomes : Type := mkCodecOutcomes {
  FindEncoder : option Codec;
  AllocCodecContext : option CodecContext
}.

(** [CodecContextFlags.Add]: a bit mask with the bits of [f] set. *)
Definition FlagsAdd (fs f : Z) : Z := Z.lor fs f.

Definition CodecResult : Type :=
  (option Codec * option CodecContext * option Error)%type.

Section Encoder.

(** The library's bit for "place global headers in extradata"; its value
    is the library's business. *)
Variable CodecContextFlagGlobalHeader : Z.

Definition NewH264EncoderCodec (width height fps bitrate : Z)
    (o : CodecOutcomes) : CodecResult :=
  match FindEncoder o with
  | None => (None, None, Some (ErrNew "error finding h264 encoder"))
  | Some codec =>
      match AllocCodecContext o with
      | None => (None, None, Some (ErrNew "error allocating codec context"))
      | Some c0 =>
          let codecCtx :=
            {| CtxWidth := CInt width;
               CtxHeight := CInt height;
               Framerate := NewRational fps 1;
               TimeBase := NewRational 1 (90 * 1000);
               CtxPixelFormat := PixelFormatYuv420P;
               BitRate := bitrate;
               Flags := FlagsAdd (Flags c0) CodecContextFlagGlobalHeader |} in
          (Some codec, Some codecCtx, None)
      end
  end.

End Encoder.

(** ** [StartScreenCap]: the screen sampler *)

(** [time.Second], in nanoseconds. *)
Definition Second : Z := 1000000000.

(** The two cases of the sampler's [select], in source order. *)
Inductive SamplerCase : Type :=
| CaseDone    (* case <-ctx.Done() *)
| CaseTick.   (* case <-ticker.C   *)

(** Go's [select] over two receive cases: a case that cannot proceed is
    never taken; when both can proceed the runtime picks one of them (the
    language fixes no priority, [pick] is the runtime's choice); when none
    can, the statement blocks. *)
Definition select2 (ready1 ready2 : bool) (pick : SamplerCase)
  : option SamplerCase :=
  match ready1, ready2 with
  | true, true => Some pick
  | true, false => Some CaseDone
  | false, true => Some CaseTick
  | false, false => None
  end.

(** What the sampler meets each time it is at its [select]: whether the
    cancellation signal has fired, whether a tick is pending, the runtime's
    pick, the answer of the capture primitive if it is called, and whether
    the consumer takes the bitmap offered on the unbuffered channel. *)
Record SelectRound : Type := mkSelectRound {
  done_ready : bool;
  tick_ready : bool;
  pick : SamplerCase;
  capture : RGBA + Error;
  handoff : bool
}.

Inductive CapCall : Type :=
| GetDisplayBounds (display : Z)
| NewTicker (d : Z)
| TickerStop
| RecvDone
| RecvTick
| CaptureRect (res : RGBA + Error)
| SendImg (img : RGBA).

Fixpoint screencap_loop (script : list SelectRound)
  : Go CapCall (option Error) (option Error) :=
  match script with
  | [] => blocked
  | r :: rest =>
      match select2 (done_ready r) (tick_ready r) (pick r) with
      | None => screencap_loop rest
      | Some CaseDone => (call RecvDone ;; ret None)%go
      | Some CaseTick =>
          (call RecvTick ;;
           call (CaptureRect (capture r)) ;;
           match capture r with
           | inr err => ret (Some err)
           | inl img =>
               if handoff r
               then (call (SendImg img) ;; screencap_loop rest)
               else blocked
           end)%go
      end
  end.

(** [time.Second / time.Duration(fps)] panics on a zero divisor, and
    [time.NewTicker] panics on an interval that is not positive. *)
Definition StartScreenCap_body (fps : Z) (script : list SelectRound)
  : Go CapCall (option Error) (option Error) :=
  if fps =? 0 then panic
  else
    let waitTime := Z.quot Second fps in
    (call (GetDisplayBounds 0) ;;
     call (NewTicker waitTime) ;;
     (if waitTime <=? 0 then panic else pure tt) ;;
     defer TickerStop ;;
     screencap_loop script)%go.

Definition StartScreenCap (fps : Z) (script : list SelectRound)
  : Run CapCall (option Error) :=
  exec (StartScreenCap_body fps script).

Definition is_capture_or_forward (c : CapCall) : bool :=
  match c with CaptureRect _ | SendImg _ => true | _ => false end.



(** The reading of the spec's sentence on the race: a round in which the
    cancellation signal has fired never captures or forwards. *)
Definition cancellation_always_wins : Prop :=
  forall (r : SelectRound) (rest : list SelectRound),
    done_ready r = true ->
    existsb is_capture_or_forward (calls (screencap_loop (r :: rest))) = false.

(** ** [StartScreenRecording]: the orchestrator *)

Definition Rational_eqb (a b : Rational) : bool :=
  (Num a =? Num b) && (Den a =? Den b).

(** Calls of the orchestrator, in the order of their first appearance in the
    source.  [SendFrame] carries the frame pointer it is given: [None] is the
    nil frame, the library's "no more frames" signal.  [IoCtxFree] is
    [ioCtx.Free()], the one call by which the code gives up the I/O context
    it opened; [CtxDone] is the deferred [ctx.Done()] of the error exits;
    [GoStartScreenCap] is the [go] statement that starts the sampler. *)
Inductive RecCall : Type :=
| SetupFFmpeg
| AllocOutputFormatContext (filename : string) (err : option Error)
| OutputCtxFree
| CallNewH264EncoderCodec (width height fps bitrate : Z) (res : CodecResult)
| EncCtxFree
| NewStream (ok : bool)
| EncOpen (err : option Error)
| FromCodecContext (err : option Error)
| SetTimeBase (tb : Rational)
| OpenIOContext (filename : string) (err : option Error)
| IoCtxFree
| SetPb
| WriteHeader (err : option Error)
| WriteTrailer (err : option Error)
| NotifyContext
| Stop
| GoStartScreenCap (fps : Z)
| RecvCtxDone
| RecvImg (img : RGBA)
| CallImageRGBAtoAVFrame (img : RGBA) (res : Run ConvCall FrameResult)
| SendFrame (frame : option Frame) (err : option Error)
| AllocPacket (ok : bool)
| PacketFree
| ReceivePacket (res : Packet + Error)
| RescaleTs (src dst : Rational)
| WriteFrame (p : Packet) (err : option Error)
| CtxDone.

(** The answers of the library while the pipeline is set up and torn down.
    [headerTimeBase] is the time base the container gives the stream while
    it writes the header, when it replaces the one set by the code. *)
Record Startup : Type := mkStartup {
  allocOutputFormatContext : option Error;
  outputBitRate : Z;
  codecOutcomes : CodecOutcomes;
  newStream : bool;
  encOpen : option Error;
  fromCodecContext : option Error;
  openIOContext : option Error;
  writeHeader : option Error;
  headerTimeBase : option Rational;
  writeTrailer : option Error
}.

(** One answer of [encCtx.ReceivePacket].  For a received packet [p] it
    comes with what the library does next: [rescaled] is the packet as
    [packet.RescaleTs] leaves it (the timestamps are rewritten in place),
    [write] is the answer of [outputCtx.WriteFrame]. *)
Inductive ReceiveOutcome : Type :=
| Received (p rescaled : Packet) (write : option Error)
| ReceiveError (e : Error).

(** One iteration of the main loop: the case its [select] took, and for a
    received bitmap the answers of the collaborators along the iteration. *)
Inductive LoopEvent : Type :=
| EvDone
| EvImg (img : RGBA) (conv : ConvOutcomes) (send : option Error)
        (packetOk : bool) (receive : list ReceiveOutcome).

(** [if err != nil { return }] *)
Definition orReturn {Act} (err : option Error) : Go Act unit unit :=
  match err with
  | Some _ => ret tt
  | None => pure tt
  end.

(** The error exit of the main loop: [defer ctx.Done(); return]. *)
Definition fatal {X} : Go RecCall unit X :=
  (defer CtxDone ;; ret tt)%go.

(** The inner [for] loop (lines 187-206): [Next] is [break]. *)
Fixpoint drain (encTimeBase streamTimeBase : Rational)
    (script : list ReceiveOutcome) : Go RecCall unit unit :=
  match script with
  | [] => blocked
  | ReceiveError e :: _ =>
      (call (ReceivePacket (inr e)) ;;
       if is_ErrEof e || is_ErrEagain e then pure tt else fatal)%go
  | Received p rescaled write :: rest =>
      (call (ReceivePacket (inl p)) ;;
       call (RescaleTs encTimeBase streamTimeBase) ;;
       call (WriteFrame rescaled write) ;;
       match write with
       | Some _ => fatal
       | None => drain encTimeBase streamTimeBase rest
       end)%go
  end.

(** The outer [for] loop (lines 151-208). *)
Fixpoint record_loop (pts : Z) (encTimeBase streamTimeBase : Rational)
    (frameNumber : Z) (script : list LoopEvent) : Go RecCall unit unit :=
  match script with
  | [] => blocked
  | EvDone :: _ => (call RecvCtxDone ;; ret tt)%go
  | EvImg img conv send packetOk receive :: rest =>
      let res := ImageRGBAtoAVFrame img conv in
      (call (RecvImg img) ;;
       call (CallImageRGBAtoAVFrame img res) ;;
       match status res with
       | Returned (_, Some _) => fatal
       | Returned (Some frame, None) =>
           call (SendFrame (Some (SetPts frame (Int64.mul frameNumber pts)))
                           send) ;;
           match send with
           | Some _ => fatal
           | None =>
               call (AllocPacket packetOk) ;;
               if packetOk
               then
                 defer PacketFree ;;
                 drain encTimeBase streamTimeBase receive ;;
                 record_loop pts encTimeBase streamTimeBase
                             (Int64.add frameNumber 1) rest
               else fatal
           end
       | _ => panic
       end)%go
  end.

(** The part of a trace that precedes the first call satisfying [P]. *)
Fixpoint before_first {A} (P : A -> bool) (t : list A) : list A :=
  match t with
  | [] => []
  | c :: rest => if P c then [] else c :: before_first P rest
  end.

Definition is_GoStartScreenCap (c : RecCall) : bool :=
  match c with GoStartScreenCap _ => true | _ => false end.

(** The goroutine started at line 137 is [StartScreenCap(ctx, fps, imgChan)].
    Whether it panics is decided before its loop, by [fps] alone. *)
Definition sampler_panics (fps : Z) : bool :=
  match status (StartScreenCap fps []) with
  | Panicked => true
  | _ => false
  end.

Section Recorder.

Variable CodecContextFlagGlobalHeader : Z.

(** [videoStream.TimeBase()] at line 198: the time base the code copied from
    the encoder at line 102, unless the container replaced it. *)
Definition streamTimeBase (encCtx : CodecContext) (s : Startup) : Rational :=
  match headerTimeBase s with
  | Some tb => tb
  | None => TimeBase encCtx
  end.

(** The body follows the source statement by statement, in the goroutine
    that calls [StartScreenRecording].  A frame rate of zero panics on the
    division of line 147, after the sampler was started; the last case of
    the match is the nil codec context without an error, which
    [NewH264EncoderCodec] never returns. *)
Definition StartScreenRecording_body (filename : string)
    (width height fps : Z) (s : Startup) (script : list LoopEvent)
  : Go RecCall unit unit :=
  let res := NewH264EncoderCodec CodecContextFlagGlobalHeader
               width height fps (outputBitRate s) (codecOutcomes s) in
  (call SetupFFmpeg ;;
   call (AllocOutputFormatContext filename (allocOutputFormatContext s)) ;;
   orReturn (allocOutputFormatContext s) ;;
   defer OutputCtxFree ;;
   call (CallNewH264EncoderCodec width height fps (outputBitRate s) res) ;;
   match res with
   | (_, _, Some _) => ret tt
   | (_, Some encCtx, None) =>
       defer EncCtxFree ;;
       call (NewStream (newStream s)) ;;
       (if newStream s then pure tt else ret tt) ;;
       call (EncOpen (encOpen s)) ;;
       orReturn (encOpen s) ;;
       call (FromCodecContext (fromCodecContext s)) ;;
       orReturn (fromCodecContext s) ;;
       call (SetTimeBase (TimeBase encCtx)) ;;
       call (OpenIOContext filename (openIOContext s)) ;;
       orReturn (openIOContext s) ;;
       defer IoCtxFree ;;
       call SetPb ;;
       call (WriteHeader (writeHeader s)) ;;
       orReturn (writeHeader s) ;;
       defer (WriteTrailer (writeTrailer s)) ;;
       call NotifyContext ;;
       defer Stop ;;
       call (GoStartScreenCap fps) ;;
       if fps =? 0 then panic
       else
         record_loop (Z.quot (90 * 1000) fps)
                     (TimeBase encCtx) (streamTimeBase encCtx s) 0 script
   | _ => panic
   end)%go.

(** A panic in the sampler's goroutine ends the whole process, whatever
    [StartScreenRecording] is doing and without running its deferred calls.
    The sampler panics, if it does, as soon as it is started, while the
    orchestrator has nothing to receive: the session then is [Panicked], and
    its trace holds the calls up to the [go] statement, the ones that are
    certain to have been made.  (At a frame rate of zero the body's own
    division panics as well; the process ends either way.)  Otherwise the
    session is what the body does. *)
Definition StartScreenRecording (filename : string) (width height fps : Z)
    (s : Startup) (script : list LoopEvent) : Run RecCall unit :=
  let r := exec (StartScreenRecording_body filename width height fps s
                   script) in
  if existsb is_GoStartScreenCap (trace r) && sampler_panics fps
  then mkRun (before_first is_GoStartScreenCap (trace r)
              ++ [GoStartScreenCap fps]) Panicked
  else r.

End Recorder.

(** ** Observations on the orchestrator's trace *)

(** The timestamp the code stamps on the frame whose counter is
    [frameNumber] (lines 147 and 165): [frameNumber * pts] in [int64], with
    [pts := int64((90 * 1000) / fps)]. *)
Definition frame_pts (fps frameNumber : Z) : Z :=
  Int64.mul frameNumber (Z.quot (90 * 1000) fps).

(** The timestamps of the frames submitted to the encoder, in order. *)
Definition stamps (t : list RecCall) : list Z :=
  flat_map (fun c => match c with
                     | SendFrame (Some f) _ => [Pts f]
                     | _ => []
                     end) t.

(** The spec's sentence on timestamps, read over the mathematical integers:
    the [k]-th frame submitted, counting from 0, carries
    [k * (90000 / fps)]. *)
Definition every_submitted_frame_exact (fps : Z) (t : list RecCall) : Prop :=
  forall (k : nat) (ts : Z),
    nth_error (stamps t) k = Some ts -> ts = Z.of_nat k * Z.quot 90000 fps.

Definition is_flush_signal (c : RecCall) : bool :=
  match c with SendFrame None _ => true | _ => false end.

Definition is_stream_ended (c : RecCall) : bool :=
  match c with ReceivePacket (inr ErrEof) => true | _ => false end.

Definition is_WriteHeader (c : RecCall) : bool :=
  match c with WriteHeader _ => true | _ => false end.

Definition is_WriteTrailer (c : RecCall) : bool :=
  match c with WriteTrailer _ => true | _ => false end.

Definition is_WriteFrame (c : RecCall) : bool :=
  match c with WriteFrame _ _ => true | _ => false end.

Definition is_RecvImg (c : RecCall) : bool :=
  match c with RecvImg _ => true | _ => false end.

Definition count (P : RecCall -> bool) (t : list RecCall) : nat :=
  List.length (filter P t).

(** The part of a trace that follows the first call satisfying [P]. *)
Fixpoint after_first {A} (P : A -> bool) (t : list A) : list A :=
  match t with
  | [] => []
  | c :: rest => if P c then rest else after_first P rest
  end.

(** The spec's flush protocol: by the time the trailer is written, the
    "no more frames" signal was submitted and "stream ended" was received
    after it. *)
Definition flushed_before_trailer (t : list RecCall) : Prop :=
  existsb is_WriteTrailer t = true ->
  existsb is_stream_ended
    (after_first is_flush_signal (before_first is_WriteTrailer t)) = true.

(** The calls made on the encoder in the main loop. *)
Definition is_encoder_call (c : RecCall) : bool :=
  match c with SendFrame _ _ | ReceivePacket _ => true | _ => false end.

(** The spec's sentence on "stream ended": it is terminal for the encoder,
    which is never asked again, neither to take a frame nor to give a
    packet. *)
Definition stream_end_is_terminal (t : list RecCall) : Prop :=
  existsb is_encoder_call (after_first is_stream_ended t) = false.

(** Where the main loop learns that it has to stop: the cancellation case of
    its [select], or a call that answers with a fatal error. *)
Definition is_stop_observation (c : RecCall) : bool :=
  match c with
  | RecvCtxDone => true
  | CallImageRGBAtoAVFrame _ res =>
      match returned_error res with Some _ => true | None => false end
  | SendFrame _ (Some _) => true
  | AllocPacket false => true
  | ReceivePacket (inr e) => negb (is_ErrEof e || is_ErrEagain e)
  | WriteFrame _ (Some _) => true
  | _ => false
  end.

(** The deferred calls of [StartScreenRecording]: those of the main loop,
    and all of them. *)
Definition is_loop_deferred (c : RecCall) : bool :=
  match c with CtxDone | PacketFree => true | _ => false end.

Definition is_cleanup (c : RecCall) : bool :=
  match c with
  | CtxDone | PacketFree | Stop | WriteTrailer _
  | IoCtxFree | EncCtxFree | OutputCtxFree => true
  | _ => false
  end.

(** Every packet write comes directly after a rescale whose two time bases
    satisfy [P]; [prev] is the call before the trace. *)
Fixpoint writes_follow_rescale (P : Rational -> Rational -> bool)
    (prev : option RecCall) (t : list RecCall) : bool :=
  match t with
  | [] => true
  | c :: rest =>
      (match c with
       | WriteFrame _ _ =>
           match prev with
           | Some (RescaleTs src dst) => P src dst
           | _ => false
           end
       | _ => true
       end) && writes_follow_rescale P (Some c) rest
  end.

(** The spec's sentence on rescaling: a rescale before every write, between
    two time bases that differ. *)
Definition rescaled_between_distinct_time_bases (t : list RecCall) : bool :=
  writes_follow_rescale (fun src dst => negb (Rational_eqb src dst)) None t.

(** What the code does: a rescale before every write, from [enc] to [st]. *)
Definition rescale_ok (enc st src dst : Rational) : bool :=
  Rational_eqb src enc && Rational_eqb dst st.

Definition rescaled_from_to (enc st : Rational) (t : list RecCall) : bool :=
  writes_follow_rescale (rescale_ok enc st) None t.

(** The calls of a drain that receives the packets [ps], each with what
    the rescaling makes of it, and writes them. *)
Definition written (enc st : Rational) (ps : list (Packet * Packet))
  : list RecCall :=
  flat_map
    (fun pq => [ReceivePacket (inl (fst pq)); RescaleTs enc st;
                WriteFrame (snd pq) None]) ps.

(** The answers of a drain that receives and writes the packets [ps]. *)
Definition all_written (ps : list (Packet * Packet)) : list ReceiveOutcome :=
  map (fun pq => Received (fst pq) (snd pq) None) ps.

(** *** The container lifecycle *)

(** The spec (section 4.4) gives the container the states Unopened,
    HeaderWritten, Streaming (zero or more packet writes), TrailerWritten
    and Closed.  What follows is the lifecycle the code gives it.
    [Unopened] records which stream parameters have been taken from the
    encoder so far ([FromCodecContext] at line 96, [SetTimeBase] at line
    102); [Streaming] is the container whose header was written, with zero
    or more packets.  The code's error exits add three states:
    [HeaderFailed] is the container whose header write failed (line 115):
    nothing is written to it any more, no trailer either, and the release
    of its I/O context leaves it [Abandoned]; [TrailerFailed] is the
    container whose trailer write failed (line 121).  The code has no call
    that closes the output file: the last it does with the container's I/O
    is the deferred [ioCtx.Free()] of line 111, after which the container
    is [Released]. *)
Inductive Lifecycle : Type :=
| Unopened (parametersCopied timeBaseSet : bool)
| Streaming
| TrailerWritten
| TrailerFailed
| Released
| HeaderFailed
| Abandoned.

(** One call seen by the lifecycle; [None] is a violation of the order. *)
Definition lifecycle_step (st : Lifecycle) (c : RecCall) : option Lifecycle :=
  match c with
  | FromCodecContext None =>
      match st with
      | Unopened _ tb => Some (Unopened true tb)
      | _ => None
      end
  | SetTimeBase _ =>
      match st with
      | Unopened pc _ => Some (Unopened pc true)
      | _ => None
      end
  | WriteHeader err =>
      match st with
      | Unopened true true =>
          Some (match err with None => Streaming | Some _ => HeaderFailed end)
      | _ => None
      end
  | WriteFrame _ _ =>
      match st with
      | Streaming => Some Streaming
      | _ => None
      end
  | WriteTrailer err =>
      match st with
      | Streaming =>
          Some (match err with
                | None => TrailerWritten
                | Some _ => TrailerFailed
                end)
      | _ => None
      end
  | IoCtxFree =>
      match st with
      | TrailerWritten | TrailerFailed => Some Released
      | HeaderFailed => Some Abandoned
      | _ => None
      end
  | _ => Some st
  end.

Fixpoint lifecycle (st : Lifecycle) (t : list RecCall) : option Lifecycle :=
  match t with
  | [] => Some st
  | c :: rest =>
      match lifecycle_step st c with
      | Some st' => lifecycle st' rest
      | None => None
      end
  end.

(** The header writes a state has behind it: one as soon as the header
    write was called, whether it succeeded or not. *)
Definition header_written (st : Lifecycle) : nat :=
  match st with Unopened _ _ => 0 | _ => 1 end.

(** The trailer writes a state has behind it, failed ones included. *)
Definition trailer_written (st : Lifecycle) : nat :=
  match st with TrailerWritten | TrailerFailed | Released => 1 | _ => 0 end.

Definition is_header_failure (c : RecCall) : bool :=
  match c with WriteHeader (Some _) => true | _ => false end.

Definition is_parameters_copied (c : RecCall) : bool :=
  match c with FromCodecContext None => true | _ => false end.

Definition is_time_base_set (c : RecCall) : bool :=
  match c with SetTimeBase _ => true | _ => false end.

Definition is_IoCtxFree (c : RecCall) : bool :=
  match c with IoCtxFree => true | _ => false end.

(** All the startup acquisitions of [StartScreenRecording] succeed. *)
Definition startup_ok (s : Startup) : bool :=
  match allocOutputFormatContext s, FindEncoder (codecOutcomes s),
        AllocCodecContext (codecOutcomes s), encOpen s, fromCodecContext s,
        openIOContext s, writeHeader s with
  | None, Some _, Some _, None, None, None, None => newStream s
  | _, _, _, _, _, _, _ => false
  end.

(** One of the resource acquisitions fails: the output context or the
    output file cannot be opened, the codec is not found, or its context
    cannot be allocated. *)
Definition acquisition_fails (s : Startup) : bool :=
  match allocOutputFormatContext s, FindEncoder (codecOutcomes s),
        AllocCodecContext (codecOutcomes s), openIOContext s with
  | None, Some _, Some _, None => false
  | _, _, _, _ => true
  end.

(** *** Startup and teardown of a session *)

(** The calls of a startup that succeeds, up to the start of the sampler. *)
Definition startup_calls (globalHeader : Z) (filename : string)
    (width height fps : Z) (s : Startup) : list RecCall :=
  [ SetupFFmpeg;
    AllocOutputFormatContext filename None;
    CallNewH264EncoderCodec width height fps (outputBitRate s)
      (NewH264EncoderCodec globalHeader width height fps (outputBitRate s)
                           (codecOutcomes s));
    NewStream true;
    EncOpen None;
    FromCodecContext None;
    SetTimeBase (NewRational 1 90000);
    OpenIOContext filename None;
    SetPb;
    WriteHeader None;
    NotifyContext;
    GoStartScreenCap fps ].

(** The deferred calls of a session whose startup succeeded, in the order in
    which they run. *)
Definition finalizers (s : Startup) : list RecCall :=
  [Stop; WriteTrailer (writeTrailer s); IoCtxFree; EncCtxFree; OutputCtxFree].

(** The time base of the stream when packets are written: the encoder's,
    1/90000, unless the container replaced it. *)
Definition stream_time_base (s : Startup) : Rational :=
  match headerTimeBase s with
  | Some tb => tb
  | None => NewRational 1 90000
  end.

(** ** Sessions used as instances *)

Definition bitmap : RGBA := mkRGBA 2 2 [].

(** A conversion in which every library call succeeds. *)
Definition conv_ok : ConvOutcomes :=
  mkConvOutcomes None None None None None None.

(** An iteration in which everything succeeds and the encoder has no packet
    ready yet. *)
Definition quiet_iteration (img : RGBA) : LoopEvent :=
  EvImg img conv_ok None true [ReceiveError ErrEagain].

(** The codec context as the library allocates it. *)
Definition fresh_context : CodecContext :=
  mkCodecContext 0 0 (NewRational 0 1) (NewRational 0 1) PixelFormatNone 0 0.

(** The spec's sentence on the encoder's parameters, read over the
    mathematical integers: time base 1/90000, frame rate [fps]/1 for every
    [fps], planar YUV 4:2:0, the global-header flag set. *)
Definition encoder_parameters_as_claimed : Prop :=
  forall (globalHeader width height fps bitrate : Z) (o : CodecOutcomes)
         (codec : Codec) (codecCtx : CodecContext),
    NewH264EncoderCodec globalHeader width height fps bitrate o
      = (Some codec, Some codecCtx, None) ->
    Num (TimeBase codecCtx) = 1 /\ Den (TimeBase codecCtx) = 90000 /\
    Num (Framerate codecCtx) = fps /\ Den (Framerate codecCtx) = 1 /\
    CtxPixelFormat codecCtx = PixelFormatYuv420P /\
    (forall n, Z.testbit globalHeader n = true ->
               Z.testbit (Flags codecCtx) n = true).

(** A startup in which every acquisition succeeds and the container keeps
    the time base the code gave the stream. *)
Definition startup_all_ok : Startup :=
  mkStartup None 0 (mkCodecOutcomes (Some CodecH264) (Some fresh_context))
            true None None None None None None.

(** The codec is missing on the platform. *)
Definition startup_without_codec : Startup :=
  mkStartup None 0 (mkCodecOutcomes None None)
            true None None None None None None.

(** The container refuses the header. *)
Definition startup_header_fails : Startup :=
  mkStartup None 0 (mkCodecOutcomes (Some CodecH264) (Some fresh_context))
            true None None None (Some (ErrCode (-22))) None None.

(** The session that follows: the output file was opened, the header write
    fails, [StartScreenRecording] returns (line 117). *)
Definition header_failure_session : Run RecCall unit :=
  StartScreenRecording 4194304 "output.mp4" 1920 1080 30 startup_header_fails
                       [].

(** The spec's sentences on the container, read on every session that has
    returned and in which the header write was reached: the header is
    written once, after the stream took its codec parameters and its time
    base from the encoder and before any packet write; the trailer is
    written once, after the last packet write; and the I/O context, the
    only handle the code has on the underlying I/O resource, is given up
    only after the trailer write. *)
Definition container_lifecycle_as_claimed : Prop :=
  forall (globalHeader : Z) (filename : string) (width height fps : Z)
         (s : Startup) (script : list LoopEvent),
    let r := StartScreenRecording globalHeader filename width height fps s
               script in
    status r = Returned tt ->
    existsb is_WriteHeader (trace r) = true ->
    count is_WriteHeader (trace r) = 1%nat /\
    existsb is_parameters_copied (before_first is_WriteHeader (trace r))
      = true /\
    existsb is_time_base_set (before_first is_WriteHeader (trace r))
      = true /\
    existsb is_WriteFrame (before_first is_WriteHeader (trace r)) = false /\
    count is_WriteTrailer (trace r) = 1%nat /\
    existsb is_WriteFrame (after_first is_WriteTrailer (trace r)) = false /\
    existsb is_IoCtxFree (before_first is_WriteTrailer (trace r)) = false.

(** A session in which the encoder answers "stream ended" to the first
    drain, and a packet to the second. *)
Definition resumed_after_stream_end : Run RecCall unit :=
  StartScreenRecording 4194304 "output.mp4" 1920 1080 30 startup_all_ok
    [ EvImg bitmap conv_ok None true [ReceiveError ErrEof];
      EvImg bitmap conv_ok None true
        [Received (mkPacket 3000 []) (mkPacket 3000 []) None;
         ReceiveError ErrEagain];
      EvDone ].

(** The shortest session: a startup that succeeds, then cancellation. *)
Definition cancelled_at_once : Run RecCall unit :=
  StartScreenRecording 4194304 "output.mp4" 1920 1080 30 startup_all_ok
                       [EvDone].

(** A session that writes one packet and is then cancelled. *)
Definition one_packet_session : Run RecCall unit :=
  StartScreenRecording 4194304 "output.mp4" 1920 1080 30 startup_all_ok
    [ EvImg bitmap conv_ok None true
        [Received (mkPacket 0 []) (mkPacket 0 []) None;
         ReceiveError ErrEagain];
      EvDone ].

(** ** [main] *)

(** [image.Rectangle]: the bounds [screenshot.GetDisplayBounds(0)] answers;
    [Dx] and [Dy] are the differences of its corners. *)
Record Rectangle : Type := mkRectangle {
  MinX : Z; MinY : Z; MaxX : Z; MaxY : Z
}.

Definition RectDx (r : Rectangle) : Z := MaxX r - MinX r.
Definition RectDy (r : Rectangle) : Z := MaxY r - MinY r.

(** [main] records the whole display to ["output.mp4"] at 30 frames per
    second; [globalHeader] is the library's flag value. *)
Definition main (globalHeader : Z) (bounds : Rectangle) (s : Startup)
    (script : list LoopEvent) : Run RecCall unit :=
  StartScreenRecording globalHeader "output.mp4"
                       (RectDx bounds) (RectDy bounds) 30 s script.

(** ** Further observations *)

(** *** On the conversion *)

(** The error of the first library call of the conversion that fails, in the
    order of the calls. *)
Definition first_error (o : ConvOutcomes) : option Error :=
  match srcAllocBuffer o, srcMakeWritable o, srcFromImage o,
        coloredAllocBuffer o, createSws o, scaleFrame o with
  | Some e, _, _, _, _, _
  | None, Some e, _, _, _, _
  | None, None, Some e, _, _, _
  | None, None, None, Some e, _, _
  | None, None, None, None, Some e, _
  | None, None, None, None, None, Some e => Some e
  | None, None, None, None, None, None => None
  end.

Definition is_failed_conv_call (c : ConvCall) : bool :=
  match c with
  | AllocBuffer _ _ (Some _) | MakeWritable _ (Some _)
  | FromImage _ _ (Some _)
  | CreateSoftwareScaleContext _ _ _ _ _ _ _ (Some _)
  | ScaleFrame _ _ (Some _) => true
  | _ => false
  end.

Definition is_conv_release (c : ConvCall) : bool :=
  match c with FrameFree _ | SwsFree => true | _ => false end.

(** The scale context gets built: the five calls up to its creation
    succeed. *)
Definition sws_built (o : ConvOutcomes) : bool :=
  match srcAllocBuffer o, srcMakeWritable o, srcFromImage o,
        coloredAllocBuffer o, createSws o with
  | None, None, None, None, None => true
  | _, _, _, _, _ => false
  end.


(** *** On the sampler *)

Definition captured (t : list CapCall) : list RGBA :=
  flat_map (fun c => match c with CaptureRect (inl img) => [img] | _ => [] end)
           t.

Definition forwarded (t : list CapCall) : list RGBA :=
  flat_map (fun c => match c with SendImg img => [img] | _ => [] end) t.

Definition is_RecvTick (c : CapCall) : bool :=
  match c with RecvTick => true | _ => false end.

Definition is_CaptureRect (c : CapCall) : bool :=
  match c with CaptureRect _ => true | _ => false end.

Definition is_NewTicker (c : CapCall) : bool :=
  match c with NewTicker _ => true | _ => false end.

Definition is_TickerStop (c : CapCall) : bool :=
  match c with TickerStop => true | _ => false end.

Definition is_sampler_loop_call (c : CapCall) : bool :=
  match c with
  | RecvDone | RecvTick | CaptureRect _ | SendImg _ => true
  | _ => false
  end.

Definition cap_count (P : CapCall -> bool) (t : list CapCall) : nat :=
  List.length (filter P t).

(** *** On the orchestrator *)

(** The calls the two loops of the orchestrator make themselves. *)
Definition is_loop_call (c : RecCall) : bool :=
  match c with
  | RecvCtxDone | RecvImg _ | CallImageRGBAtoAVFrame _ _ | SendFrame _ _
  | AllocPacket _ | ReceivePacket _ | RescaleTs _ _ | WriteFrame _ _ => true
  | _ => false
  end.

Definition is_packet_received (c : RecCall) : bool :=
  match c with ReceivePacket (inl _) => true | _ => false end.

Definition is_RescaleTs (c : RecCall) : bool :=
  match c with RescaleTs _ _ => true | _ => false end.

Definition is_packet_allocated (c : RecCall) : bool :=
  match c with AllocPacket true => true | _ => false end.

Definition is_PacketFree (c : RecCall) : bool :=
  match c with PacketFree => true | _ => false end.

Definition is_SendFrame (c : RecCall) : bool :=
  match c with SendFrame _ _ => true | _ => false end.

Definition is_output_acquired (c : RecCall) : bool :=
  match c with AllocOutputFormatContext _ None => true | _ => false end.

Definition is_OutputCtxFree (c : RecCall) : bool :=
  match c with OutputCtxFree => true | _ => false end.

Definition is_encoder_acquired (c : RecCall) : bool :=
  match c with
  | CallNewH264EncoderCodec _ _ _ _ (_, Some _, None) => true
  | _ => false
  end.

Definition is_EncCtxFree (c : RecCall) : bool :=
  match c with EncCtxFree => true | _ => false end.

Definition is_io_acquired (c : RecCall) : bool :=
  match c with OpenIOContext _ None => true | _ => false end.

(** The sizes of the bitmaps received and of the frames submitted. *)
Definition received_sizes (t : list RecCall) : list (Z * Z) :=
  flat_map (fun c => match c with RecvImg img => [(Dx img, Dy img)] | _ => [] end)
           t.

Definition submitted_sizes (t : list RecCall) : list (Z * Z) :=
  flat_map (fun c => match c with
                     | SendFrame (Some f) _ => [(Width f, Height f)]
                     | _ => []
                     end) t.

(** The calls the drain loop makes itself. *)
Definition is_drain_call (c : RecCall) : bool :=
  match c with
  | ReceivePacket _ | RescaleTs _ _ | WriteFrame _ _ => true
  | _ => false
  end.

(** * Properties *)

(** ** Facts on 64-bit wrap-around *)

Lemma Int64_wrap_in_range (z : Z) : Int64.in_range (Int64.wrap z).
Proof.
  unfold Int64.in_range, Int64.wrap, Int64.half, Int64.modulus.
  pose proof (Z.mod_pos_bound (z + 2 ^ 63) (2 ^ 64) ltac:(lia)). lia.
Qed.

Lemma Int64_wrap_small (z : Z) : Int64.in_range z -> Int64.wrap z = z.
Proof.
  unfold Int64.in_range, Int64.wrap, Int64.half, Int64.modulus. intros H.
  rewrite Z.mod_small; lia.
Qed.

Lemma Int64_wrap_congr (a b : Z) :
  a mod Int64.modulus = b mod Int64.modulus -> Int64.wrap a = Int64.wrap b.
Proof.
  unfold Int64.wrap. intros H.
  rewrite (Z.add_mod a), (Z.add_mod b), H by (unfold Int64.modulus; lia).
  reflexivity.
Qed.

Lemma Int64_wrap_mod (z : Z) :
  Int64.wrap z mod Int64.modulus = z mod Int64.modulus.
Proof.
  unfold Int64.wrap.
  rewrite Zminus_mod, Zmod_mod, <- Zminus_mod.
  f_equal. lia.
Qed.

(** Multiplying a wrapped counter wraps like multiplying the counter. *)
Lemma Int64_mul_wrap_l (a b : Z) :
  Int64.mul (Int64.wrap a) b = Int64.wrap (a * b).
Proof.
  unfold Int64.mul. apply Int64_wrap_congr.
  rewrite Z.mul_mod, Int64_wrap_mod, <- Z.mul_mod
    by (unfold Int64.modulus; lia).
  reflexivity.
Qed.

Lemma Int64_add_wrap_l (a b : Z) :
  Int64.add (Int64.wrap a) b = Int64.wrap (a + b).
Proof.
  unfold Int64.add. apply Int64_wrap_congr.
  rewrite Z.add_mod, Int64_wrap_mod, <- Z.add_mod
    by (unfold Int64.modulus; lia).
  reflexivity.
Qed.

(** ** Facts on traces *)

Lemma existsb_app_false {A} (P : A -> bool) (l1 l2 : list A) :
  existsb P l1 = false -> existsb P l2 = false -> existsb P (l1 ++ l2) = false.
Proof. intros H1 H2. rewrite existsb_app, H1, H2. reflexivity. Qed.

Lemma after_first_app_none {A} (P : A -> bool) (l1 l2 : list A) :
  existsb P l1 = false -> after_first P (l1 ++ l2) = after_first P l2.
Proof.
  induction l1 as [|c l1 IH]; simpl; [reflexivity|].
  destruct (P c); simpl; [discriminate|]. exact IH.
Qed.

Lemma after_first_app_some {A} (P : A -> bool) (l1 l2 : list A) :
  existsb P l1 = true -> after_first P (l1 ++ l2) = after_first P l1 ++ l2.
Proof.
  induction l1 as [|c l1 IH]; simpl; [discriminate|].
  destruct (P c); simpl; [reflexivity|]. exact IH.
Qed.

Lemma lifecycle_app (st : Lifecycle) (t1 t2 : list RecCall) :
  lifecycle st (t1 ++ t2) =
  match lifecycle st t1 with
  | Some st' => lifecycle st' t2
  | None => None
  end.
Proof.
  revert st. induction t1 as [|c t1 IH]; intros st; simpl; [reflexivity|].
  destruct (lifecycle_step st c); [apply IH | reflexivity].
Qed.

Lemma writes_follow_rescale_app P prev (t1 t2 : list RecCall) :
  writes_follow_rescale P prev (t1 ++ t2) =
  writes_follow_rescale P prev t1 &&
  writes_follow_rescale P (match rev t1 with c :: _ => Some c | [] => prev end)
                        t2.
Proof.
  revert prev. induction t1 as [|c t1 IH]; intros prev; simpl; [reflexivity|].
  rewrite IH, <- andb_assoc. do 2 f_equal.
  destruct (rev t1) as [|d r] eqn:E; simpl; [reflexivity|].
  reflexivity.
Qed.

Lemma stamps_app (t1 t2 : list RecCall) :
  stamps (t1 ++ t2) = stamps t1 ++ stamps t2.
Proof. unfold stamps. apply flat_map_app. Qed.

(** ** The conversion releases what it owns *)

Ltac case_outcomes o :=
  destruct o as [[?|] [?|] [?|] [?|] [?|] [?|]].

(** The intermediate RGBA frame is released on every exit path. *)
Lemma srcFrame_released (img : RGBA) (o : ConvOutcomes) :
  outlives (trace (ImageRGBAtoAVFrame img o)) srcFrame = false.
Proof. case_outcomes o; reflexivity. Qed.

(** The scale context, once built, is released on every exit path. *)
Lemma swsCtx_released (img : RGBA) (o : ConvOutcomes) :
  outlives (trace (ImageRGBAtoAVFrame img o)) swsCtx = false.
Proof. case_outcomes o; reflexivity. Qed.

(** The conversion always returns, with either a frame or an error. *)
Lemma ImageRGBAtoAVFrame_returns (img : RGBA) (o : ConvOutcomes) :
  (exists e, status (ImageRGBAtoAVFrame img o) = Returned (None, Some e)) \/
  status (ImageRGBAtoAVFrame img o) =
    Returned (Some (mkFrame (Dx img) (Dy img) PixelFormatYuv420P NoPtsValue), None).
Proof. case_outcomes o; simpl; eauto. Qed.

(** On success the output frame is the only object left alive, and it is the
    one returned. *)
Lemma coloredFrame_returned_on_success (img : RGBA) :
  let r := ImageRGBAtoAVFrame img
             (mkConvOutcomes None None None None None None) in
  returned_frame r = Some (mkFrame (Dx img) (Dy img) PixelFormatYuv420P NoPtsValue) /\
  outlives (trace r) coloredFrame = true.
Proof. split; reflexivity. Qed.

(** C8.  The claim has the output frame as the one object that outlives the
    conversion, owned by the caller.  On the three error exits taken after
    the output frame was allocated (its buffer cannot be allocated, the scale
    context cannot be built, scaling fails) the function returns a nil frame
    and the error, and the output frame is still alive: it outlives the call
    and nobody holds it. *)
Theorem coloredFrame_leaks_on_late_failure (img : RGBA) (e : Error) :
  let late_failures :=
    [ mkConvOutcomes None None None (Some e) None None;
      mkConvOutcomes None None None None (Some e) None;
      mkConvOutcomes None None None None None (Some e) ] in
  Forall (fun o =>
            let r := ImageRGBAtoAVFrame img o in
            status r = Returned (None, Some e) /\
            returned_frame r = None /\
            outlives (trace r) coloredFrame = true /\
            outlives (trace r) srcFrame = false /\
            outlives (trace r) swsCtx = false)
         late_failures.
Proof. repeat constructor. Qed.

(** ** The encoder's configuration *)

Lemma Int32_wrap_small (z : Z) : Int32.in_range z -> Int32.wrap z = z.
Proof.
  unfold Int32.in_range, Int32.wrap, Int32.half, Int32.modulus. intros H.
  rewrite Z.mod_small; lia.
Qed.

Lemma FlagsAdd_sets (fs f : Z) (n : Z) :
  Z.testbit f n = true -> Z.testbit (FlagsAdd fs f) n = true.
Proof.
  unfold FlagsAdd. intros H. rewrite Z.lor_spec, H. apply orb_true_r.
Qed.

Lemma FlagsAdd_keeps (fs f : Z) (n : Z) :
  Z.testbit fs n = true -> Z.testbit (FlagsAdd fs f) n = true.
Proof.
  unfold FlagsAdd. intros H. rewrite Z.lor_spec, H. reflexivity.
Qed.

(** C9, as the spec has it: refuted at a frame rate that does not fit a C
    [int].  [NewRational] narrows its arguments to 32 bits, so the frame
    rate 4294967326 is stored as 30/1. *)
Lemma framerate_narrowed_to_32_bits : ~ encoder_parameters_as_claimed.
Proof.
  intros H.
  destruct (H 4194304 1920 1080 4294967326 0
              (mkCodecOutcomes (Some CodecH264) (Some fresh_context))
              CodecH264 _ eq_refl) as (_ & _ & Hn & _).
  vm_compute in Hn. discriminate Hn.
Qed.

(** C9, amended.  Whenever the library finds the codec and allocates a
    context, construction returns that codec and a context whose time base
    is 1/90000 whatever [fps] is, whose frame rate is [NewRational(fps, 1)],
    that is [fps] narrowed to a C [int] over 1, hence [fps]/1 for every
    [fps] in the 32-bit range, whose pixel format is planar YUV 4:2:0, and
    whose flags are the allocated context's flags with the bits of the
    global-header flag set. *)
Theorem NewH264EncoderCodec_parameters
    (globalHeader width height fps bitrate : Z) (o : CodecOutcomes)
    (codec : Codec) (c0 : CodecContext) :
  FindEncoder o = Some codec ->
  AllocCodecContext o = Some c0 ->
  exists codecCtx,
    NewH264EncoderCodec globalHeader width height fps bitrate o
      = (Some codec, Some codecCtx, None) /\
    Num (TimeBase codecCtx) = 1 /\ Den (TimeBase codecCtx) = 90000 /\
    Num (Framerate codecCtx) = Int32.wrap fps /\
    Den (Framerate codecCtx) = 1 /\
    (Int32.in_range fps -> Num (Framerate codecCtx) = fps) /\
    CtxPixelFormat codecCtx = PixelFormatYuv420P /\
    Flags codecCtx = FlagsAdd (Flags c0) globalHeader /\
    (forall n, Z.testbit globalHeader n = true ->
               Z.testbit (Flags codecCtx) n = true).
Proof.
  intros Hc Ha. unfold NewH264EncoderCodec. rewrite Hc, Ha.
  eexists. split; [reflexivity|].
  cbn [TimeBase Framerate CtxPixelFormat Flags].
  repeat split.
  - intros Hr. apply Int32_wrap_small. exact Hr.
  - intros n Hn. apply FlagsAdd_sets. exact Hn.
Qed.

(** ** The sampler *)

(** How the sampler's loop can end, and on which call. *)
Lemma screencap_loop_endings (script : list SelectRound) :
  deferred (screencap_loop script) = [] /\
  match ending (screencap_loop script) with
  | Return None =>
      exists pre, calls (screencap_loop script) = pre ++ [RecvDone]
  | Return (Some e) =>
      exists pre, calls (screencap_loop script) = pre ++ [CaptureRect (inr e)]
  | Blocked => True
  | Next _ | Panic => False
  end.
Proof.
  induction script as [|r rest [IHd IHe]]; simpl; [split; exact I || reflexivity|].
  destruct (select2 (done_ready r) (tick_ready r) (pick r)) as [[|]|].
  - split; [reflexivity|]. exists []. reflexivity.
  - destruct (capture r) as [img|err] eqn:Ecap.
    + destruct (handoff r); [|split; [reflexivity | exact I]].
      unfold bind at 1 2 3; simpl. unfold bind; simpl.
      destruct (ending (screencap_loop rest)) as [x|[e|]| |] eqn:Eend;
        simpl; rewrite ?IHd; (split; [reflexivity|]); try exact IHe.
      * destruct IHe as [pre Hpre]. rewrite Hpre.
        exists (RecvTick :: CaptureRect (inl img) :: SendImg img :: pre).
        reflexivity.
      * destruct IHe as [pre Hpre]. rewrite Hpre.
        exists (RecvTick :: CaptureRect (inl img) :: SendImg img :: pre).
        reflexivity.
    + split; [reflexivity|].
      exists [RecvTick]. reflexivity.
  - split; assumption.
Qed.

Lemma ticker_interval_not_positive (fps : Z) :
  fps <> 0 -> (Z.quot Second fps <= 0 <-> fps < 0 \/ Second < fps).
Proof.
  unfold Second. intros Hfps. split.
  - intros H. destruct (Z_lt_le_dec fps 0) as [|Hpos]; [left; assumption|].
    right. rewrite Z.quot_div_nonneg in H by lia.
    destruct (Z_lt_le_dec 1000000000 fps) as [|Hle]; [assumption|].
    assert (1 <= 1000000000 / fps) by (apply Z.div_le_lower_bound; lia).
    lia.
  - intros [Hneg | Hbig].
    + replace fps with (- (- fps)) by lia.
      rewrite Z.quot_opp_r by lia.
      pose proof (Z.quot_pos 1000000000 (- fps)). lia.
    + rewrite Z.quot_small by lia. lia.
Qed.

(** The trace of a sampler that does not panic. *)
Lemma StartScreenCap_trace (fps : Z) (script : list SelectRound) :
  0 < fps <= 1000000000 ->
  let l := screencap_loop script in
  let r := StartScreenCap fps script in
  (ending l = Blocked /\ status r = Running /\
   trace r = GetDisplayBounds 0 :: NewTicker (Z.quot Second fps) :: calls l)
  \/
  (exists e, ending l = Return e /\ status r = Returned e /\
   trace r = GetDisplayBounds 0 :: NewTicker (Z.quot Second fps)
             :: calls l ++ [TickerStop]).
Proof.
  intros Hfps l r. subst r. unfold StartScreenCap, StartScreenCap_body.
  destruct (Z.eqb_spec fps 0) as [->|Hnz]; [lia|].
  pose proof (ticker_interval_not_positive fps Hnz) as Hq.
  destruct (Z.leb_spec (Z.quot Second fps) 0) as [Hle|Hgt];
    [apply Hq in Hle; unfold Second in Hle; lia|].
  destruct (screencap_loop_endings script) as [Hd He]. fold l in Hd, He.
  unfold exec, bind; cbn. fold l. rewrite Hd.
  destruct (ending l) as [x|e| |]; cbn; try contradiction.
  - right. exists e. repeat split.
  - left. repeat split.
Qed.



(** C4, as the spec has it: refuted by a round in which both the
    cancellation signal and a tick are ready and the runtime picks the
    tick. *)
Lemma cancellation_may_lose_the_race : ~ cancellation_always_wins.
Proof.
  intros H.
  specialize (H (mkSelectRound true true CaseTick (inl (mkRGBA 2 2 [])) true)
                [] eq_refl).
  discriminate H.
Qed.

(** C4, amended.  With the cancellation signal ready, the sampler takes the
    cancellation case, and then returns nil at once without capturing or
    forwarding, when no tick is pending or when the runtime picks that case;
    when a tick is pending too and the runtime picks the tick, the sampler
    still captures. *)
Theorem cancellation_taken_unless_tick_picked
    (r : SelectRound) (rest : list SelectRound) :
  done_ready r = true ->
  (tick_ready r = false \/ pick r = CaseDone ->
   screencap_loop (r :: rest) = mkGo [RecvDone] [] (Return None)) /\
  (tick_ready r = true -> pick r = CaseTick ->
   exists tl, calls (screencap_loop (r :: rest))
              = RecvTick :: CaptureRect (capture r) :: tl).
Proof.
  intros Hd. split.
  - intros [Ht | Hp]; simpl; rewrite Hd.
    + rewrite Ht. reflexivity.
    + rewrite Hp. destruct (tick_ready r); reflexivity.
  - intros Ht Hp. simpl. rewrite Hd, Ht, Hp. simpl.
    destruct (capture r) as [img|err]; [destruct (handoff r)|];
      unfold bind; simpl; eauto;
      destruct (ending (screencap_loop rest)); simpl; eauto.
Qed.

(** ** The drain loop *)

Lemma Rational_eqb_refl (a : Rational) : Rational_eqb a a = true.
Proof. unfold Rational_eqb. rewrite !Z.eqb_refl. reflexivity. Qed.

Lemma Rational_eqb_eq (a b : Rational) : Rational_eqb a b = true <-> a = b.
Proof.
  destruct a as [n d], b as [n' d']. unfold Rational_eqb; simpl.
  rewrite andb_true_iff, !Z.eqb_eq. split; [intros [-> ->] | intros [= -> ->]]; auto.
Qed.

Lemma drain_written (enc st : Rational) (ps : list (Packet * Packet))
    (rest : list ReceiveOutcome) :
  drain enc st (all_written ps ++ rest)
  = mkGo (written enc st ps ++ calls (drain enc st rest))
         (deferred (drain enc st rest))
         (ending (drain enc st rest)).
Proof.
  unfold all_written. induction ps as [|[p q] ps IH]; simpl.
  - destruct (drain enc st rest); reflexivity.
  - rewrite IH. unfold bind; simpl. rewrite !app_nil_r. reflexivity.
Qed.

Lemma bind_Next {Act R X Y} (m : Go Act R X) (k : X -> Go Act R Y) (x : X) :
  ending m = Next x ->
  bind m k = mkGo (calls m ++ calls (k x)) (deferred (k x) ++ deferred m)
                  (ending (k x)).
Proof. intros H. unfold bind. rewrite H. reflexivity. Qed.

Lemma bind_Return {Act R X Y} (m : Go Act R X) (k : X -> Go Act R Y) (r : R) :
  ending m = Return r ->
  bind m k = mkGo (calls m) (deferred m) (Return r).
Proof. intros H. unfold bind. rewrite H. reflexivity. Qed.

Lemma bind_Blocked {Act R X Y} (m : Go Act R X) (k : X -> Go Act R Y) :
  ending m = Blocked ->
  bind m k = mkGo (calls m) (deferred m) Blocked.
Proof. intros H. unfold bind. rewrite H. reflexivity. Qed.

Lemma drain_Received_ok (enc st : Rational) (p q : Packet)
    (rest : list ReceiveOutcome) :
  drain enc st (Received p q None :: rest)
  = mkGo (ReceivePacket (inl p) :: RescaleTs enc st :: WriteFrame q None
            :: calls (drain enc st rest))
         (deferred (drain enc st rest))
         (ending (drain enc st rest)).
Proof. apply (drain_written enc st [(p, q)] rest). Qed.

(** What every property of the orchestrator needs to know about one drain. *)
Lemma drain_facts (enc st : Rational) (ds : list ReceiveOutcome) :
  stamps (calls (drain enc st ds)) = [] /\
  existsb is_flush_signal (calls (drain enc st ds)) = false /\
  lifecycle Streaming (calls (drain enc st ds)) = Some Streaming /\
  (forall prev,
     writes_follow_rescale (rescale_ok enc st) prev (calls (drain enc st ds))
     = true) /\
  match ending (drain enc st ds) with
  | Next _ | Blocked =>
      deferred (drain enc st ds) = [] /\
      existsb is_stop_observation (calls (drain enc st ds)) = false
  | Return _ =>
      deferred (drain enc st ds) = [CtxDone] /\
      existsb is_stop_observation (calls (drain enc st ds)) = true /\
      after_first is_stop_observation (calls (drain enc st ds)) = []
  | Panic => False
  end.
Proof.
  induction ds as [|[p q [w|]|e] rest (IH1 & IH2 & IH3 & IH4 & IH5)].
  - simpl. repeat split; reflexivity.
  - simpl. unfold rescale_ok. rewrite !Rational_eqb_refl.
    repeat split; reflexivity.
  - rewrite drain_Received_ok. cbn [calls deferred ending].
    split; [exact IH1|]. split; [exact IH2|]. split; [exact IH3|].
    split.
    + intros prev. cbn [writes_follow_rescale].
      unfold rescale_ok at 1. rewrite !Rational_eqb_refl. cbn [andb].
      apply IH4.
    + destruct (ending (drain enc st rest)); cbn [existsb after_first is_stop_observation orb];
        exact IH5.
  - destruct e; simpl; repeat split; reflexivity.
Qed.

(** ** The main loop *)

(** What every property of the orchestrator needs to know about the main
    loop, started with the frame counter at (the wrap-around of) [n0]. *)
Lemma record_loop_facts (pts : Z) (enc st : Rational)
    (script : list LoopEvent) (n0 : Z) :
  let g := record_loop pts enc st (Int64.wrap n0) script in
  (forall k ts, nth_error (stamps (calls g)) k = Some ts ->
                ts = Int64.wrap ((n0 + Z.of_nat k) * pts)) /\
  existsb is_flush_signal (calls g) = false /\
  lifecycle Streaming (calls g) = Some Streaming /\
  (forall prev,
     writes_follow_rescale (rescale_ok enc st) prev (calls g) = true) /\
  forallb is_loop_deferred (deferred g) = true /\
  match ending g with
  | Blocked => existsb is_stop_observation (calls g) = false
  | Return _ =>
      existsb is_stop_observation (calls g) = true /\
      after_first is_stop_observation (calls g) = []
  | Next _ | Panic => False
  end.
Proof.
  revert n0. induction script as [|ev rest IH]; intros n0 g; subst g.
  - simpl. repeat split; try reflexivity. intros [|k] ts; discriminate.
  - destruct ev as [|img conv send pk ds].
    + simpl. repeat split; try reflexivity. intros [|k] ts; discriminate.
    + cbn [record_loop].
      set (res := ImageRGBAtoAVFrame img conv).
      destruct (ImageRGBAtoAVFrame_returns img conv) as [[e He]|He];
        fold res in He.
      * rewrite He. unfold bind; simpl. unfold returned_error. rewrite He. simpl.
        repeat split; try reflexivity. intros [|k] ts; discriminate.
      * rewrite He.
        destruct send as [e|].
        { unfold bind; simpl. unfold returned_error. rewrite He. simpl.
          repeat split; try reflexivity.
          intros [|[|k]] ts; try discriminate.
          intros [= <-]. rewrite Int64_mul_wrap_l. f_equal. lia. }
        destruct pk.
        2:{ unfold bind; simpl. unfold returned_error. rewrite He. simpl.
          repeat split; try reflexivity.
          intros [|[|k]] ts; try discriminate.
          intros [= <-]. rewrite Int64_mul_wrap_l. f_equal. lia. }
        rewrite Int64_add_wrap_l.
        specialize (IH (n0 + 1)). cbv zeta in IH.
        set (l := record_loop pts enc st (Int64.wrap (n0 + 1)) rest) in *.
        destruct IH as (L1 & L2 & L3 & L4 & L5 & L6).
        destruct (drain_facts enc st ds) as (D1 & D2 & D3 & D4 & D5).
        set (d := drain enc st ds) in *.
        destruct (ending d) as [[]|[]| |] eqn:Ed; [| | contradiction |].
        { destruct D5 as [D5 D6].
          unfold bind; simpl. rewrite Ed. simpl.
          unfold returned_error. rewrite He. simpl.
          rewrite D5, !app_nil_r, stamps_app, D1, !existsb_app, D2, L2, D6.
          rewrite lifecycle_app, D3, L3, writes_follow_rescale_app, D4, L4.
          rewrite after_first_app_none by exact D6.
          rewrite forallb_app, L5. simpl.
          repeat split; try reflexivity; try exact L6.
          intros [|k] ts; simpl.
          - intros [= <-]. rewrite Int64_mul_wrap_l. f_equal. lia.
          - intros Hk. rewrite (L1 k ts Hk). f_equal. lia. }
        { destruct D5 as (D5 & D6 & D7).
          unfold bind; simpl. rewrite Ed. simpl.
          unfold returned_error. rewrite He. simpl.
          rewrite !app_nil_r, D1, D2, D3, D4, D5, D6, D7.
          repeat split; try reflexivity.
          intros [|[|k]] ts; try discriminate.
          intros [= <-]. rewrite Int64_mul_wrap_l. f_equal. lia. }
        { destruct D5 as [D5 D6].
          unfold bind; simpl. rewrite Ed. simpl.
          unfold returned_error. rewrite He. simpl.
          rewrite !app_nil_r, D1, D2, D3, D4, D5, D6.
          repeat split; try reflexivity.
          intros [|[|k]] ts; try discriminate.
          intros [= <-]. rewrite Int64_mul_wrap_l. f_equal. lia. }
Qed.

(** ** Startup and teardown *)

Lemma startup_ok_inv (s : Startup) :
  startup_ok s = true ->
  allocOutputFormatContext s = None /\
  (exists codec, FindEncoder (codecOutcomes s) = Some codec) /\
  (exists c0, AllocCodecContext (codecOutcomes s) = Some c0) /\
  newStream s = true /\ encOpen s = None /\ fromCodecContext s = None /\
  openIOContext s = None /\ writeHeader s = None.
Proof.
  unfold startup_ok.
  destruct (allocOutputFormatContext s), (FindEncoder (codecOutcomes s)),
    (AllocCodecContext (codecOutcomes s)), (encOpen s), (fromCodecContext s),
    (openIOContext s), (writeHeader s); try discriminate.
  intros ->. repeat split; eauto.
Qed.

(** With a successful startup and a frame rate that is not zero, the body is
    the startup calls followed by the main loop, the finalizers being
    deferred below whatever the loop defers. *)
Lemma StartScreenRecording_body_running (globalHeader : Z) (filename : string)
    (width height fps : Z) (s : Startup) (script : list LoopEvent) :
  startup_ok s = true -> fps <> 0 ->
  let l := record_loop (Z.quot 90000 fps) (NewRational 1 90000)
                       (stream_time_base s) (Int64.wrap 0) script in
  StartScreenRecording_body globalHeader filename width height fps s script
  = mkGo (startup_calls globalHeader filename width height fps s ++ calls l)
         (deferred l ++ finalizers s)
         (ending l).
Proof.
  intros Hok Hfps l.
  destruct (startup_ok_inv s Hok)
    as (H1 & [codec H2] & [c0 H3] & H4 & H5 & H6 & H7 & H8).
  apply Z.eqb_neq in Hfps.
  unfold StartScreenRecording_body, startup_calls, NewH264EncoderCodec,
    streamTimeBase, stream_time_base, finalizers.
  rewrite H1, H2, H3, H4, H5, H6, H7, H8, Hfps.
  cbn [bind ending calls deferred call defer pure ret orReturn app TimeBase].
  subst l. change (90 * 1000) with 90000. change (Int64.wrap 0) with 0.
  rewrite !app_nil_r, <- !app_assoc. reflexivity.
Qed.

Lemma StartScreenRecording_body_zero_fps (globalHeader : Z) (filename : string)
    (width height : Z) (s : Startup) (script : list LoopEvent) :
  startup_ok s = true ->
  StartScreenRecording_body globalHeader filename width height 0 s script
  = mkGo (startup_calls globalHeader filename width height 0 s)
         (finalizers s) Panic.
Proof.
  intros Hok.
  destruct (startup_ok_inv s Hok)
    as (H1 & [codec H2] & [c0 H3] & H4 & H5 & H6 & H7 & H8).
  unfold StartScreenRecording_body, startup_calls, NewH264EncoderCodec,
    streamTimeBase, stream_time_base, finalizers.
  rewrite H1, H2, H3, H4, H5, H6, H7, H8.
  cbn [bind ending calls deferred call defer pure ret orReturn app TimeBase
       Z.eqb panic].
  change (90 * 1000) with 90000. reflexivity.
Qed.

Ltac failed_startup_case :=
  repeat split; try reflexivity; eexists;
  (split; [reflexivity|]);
  first [discriminate | intros _; split; reflexivity].

(** A startup that fails returns before the sampler is started, a frame is
    submitted or a packet is written; the container, if its header write
    failed, is left abandoned, its I/O context released without a
    trailer. *)
Lemma StartScreenRecording_failed_startup (globalHeader : Z)
    (filename : string) (width height fps : Z) (s : Startup)
    (script : list LoopEvent) :
  startup_ok s = false ->
  let r := StartScreenRecording globalHeader filename width height fps s
             script in
  status r = Returned tt /\
  existsb is_GoStartScreenCap (trace r) = false /\
  existsb is_RecvImg (trace r) = false /\
  stamps (trace r) = [] /\
  existsb is_flush_signal (trace r) = false /\
  existsb is_stop_observation (trace r) = false /\
  existsb is_WriteFrame (trace r) = false /\
  existsb is_WriteTrailer (trace r) = false /\
  (exists st, lifecycle (Unopened false false) (trace r) = Some st /\
              (existsb is_header_failure (trace r) = true ->
               st = Abandoned /\ count is_IoCtxFree (trace r) = 1%nat)).
Proof.
  intros Hok r. subst r.
  unfold StartScreenRecording, StartScreenRecording_body, NewH264EncoderCodec.
  unfold startup_ok in Hok.
  destruct (allocOutputFormatContext s);
    [failed_startup_case|].
  destruct (FindEncoder (codecOutcomes s));
    [|failed_startup_case].
  destruct (AllocCodecContext (codecOutcomes s));
    [|failed_startup_case].
  destruct (newStream s);
    [|failed_startup_case].
  destruct (encOpen s);
    [failed_startup_case|].
  destruct (fromCodecContext s);
    [failed_startup_case|].
  destruct (openIOContext s);
    [failed_startup_case|].
  destruct (writeHeader s);
    [failed_startup_case|].
  discriminate.
Qed.

Lemma sampler_alive_not_zero (fps : Z) : sampler_panics fps = false -> fps <> 0.
Proof. intros H ->. discriminate H. Qed.

(** While the sampler does not panic, the session is what the body does. *)
Lemma StartScreenRecording_alive (globalHeader : Z) (filename : string)
    (width height fps : Z) (s : Startup) (script : list LoopEvent) :
  sampler_panics fps = false ->
  StartScreenRecording globalHeader filename width height fps s script
  = exec (StartScreenRecording_body globalHeader filename width height fps s
            script).
Proof.
  intros H. unfold StartScreenRecording. rewrite H, andb_false_r. reflexivity.
Qed.

(** The session whose startup succeeds and whose sampler panics. *)
Lemma StartScreenRecording_sampler_panics (globalHeader : Z)
    (filename : string) (width height fps : Z) (s : Startup)
    (script : list LoopEvent) :
  startup_ok s = true -> sampler_panics fps = true ->
  StartScreenRecording globalHeader filename width height fps s script
  = mkRun (startup_calls globalHeader filename width height fps s) Panicked.
Proof.
  intros Hok Hp. unfold StartScreenRecording. rewrite Hp, andb_true_r.
  assert (Ht : exists rest,
             trace (exec (StartScreenRecording_body globalHeader filename
                            width height fps s script))
             = startup_calls globalHeader filename width height fps s ++ rest).
  { destruct (Z.eq_dec fps 0) as [->|Hfps].
    - rewrite StartScreenRecording_body_zero_fps by exact Hok.
      eexists. reflexivity.
    - rewrite (StartScreenRecording_body_running _ _ _ _ _ _ script Hok Hfps).
      unfold exec. cbn [ending calls deferred].
      destruct (ending (record_loop (Z.quot 90000 fps) (NewRational 1 90000)
                          (stream_time_base s) (Int64.wrap 0) script));
        cbn [trace]; rewrite <- ?app_assoc; eexists; reflexivity. }
  destruct Ht as [rest ->]. reflexivity.
Qed.

(** The run of a session whose startup succeeded. *)
Lemma StartScreenRecording_running (globalHeader : Z) (filename : string)
    (width height fps : Z) (s : Startup) (script : list LoopEvent) :
  startup_ok s = true -> sampler_panics fps = false ->
  let l := record_loop (Z.quot 90000 fps) (NewRational 1 90000)
                       (stream_time_base s) (Int64.wrap 0) script in
  let r := StartScreenRecording globalHeader filename width height fps s
             script in
  (ending l = Blocked /\ status r = Running /\
   trace r = startup_calls globalHeader filename width height fps s ++ calls l)
  \/
  (ending l = Return tt /\ status r = Returned tt /\
   trace r = startup_calls globalHeader filename width height fps s
             ++ calls l ++ deferred l ++ finalizers s).
Proof.
  intros Hok Hfps l r. subst r.
  rewrite StartScreenRecording_alive by exact Hfps.
  rewrite (StartScreenRecording_body_running _ _ _ _ _ _ script Hok
             (sampler_alive_not_zero fps Hfps)).
  fold l. unfold exec. cbn [ending calls deferred].
  destruct (record_loop_facts (Z.quot 90000 fps) (NewRational 1 90000)
              (stream_time_base s) script 0) as (_ & _ & _ & _ & _ & L6).
  fold l in L6.
  destruct (ending l) as [[]|[]| |]; try contradiction.
  - right. rewrite <- app_assoc. auto.
  - left. auto.
Qed.

(** C7.  When a resource acquisition fails at startup (output context,
    codec lookup, codec context, output file), the session returns without
    having started the sampler and without having received a bitmap. *)
Theorem acquisition_failure_aborts_before_capture (globalHeader : Z)
    (filename : string) (width height fps : Z) (s : Startup)
    (script : list LoopEvent) :
  acquisition_fails s = true ->
  let r := StartScreenRecording globalHeader filename width height fps s
             script in
  status r = Returned tt /\
  existsb is_GoStartScreenCap (trace r) = false /\
  existsb is_RecvImg (trace r) = false.
Proof.
  intros Hfail.
  assert (Hok : startup_ok s = false).
  { unfold acquisition_fails in Hfail. unfold startup_ok.
    destruct (allocOutputFormatContext s), (FindEncoder (codecOutcomes s)),
      (AllocCodecContext (codecOutcomes s)), (openIOContext s);
      try discriminate; try reflexivity;
      destruct (encOpen s), (fromCodecContext s); reflexivity. }
  destruct (StartScreenRecording_failed_startup globalHeader filename width
              height fps s script Hok) as (H1 & H2 & H3 & _).
  auto.
Qed.

(** The sampler is started exactly when the whole startup succeeds. *)
Lemma sampler_started_iff_startup_ok (globalHeader : Z)
    (filename : string) (width height fps : Z) (s : Startup)
    (script : list LoopEvent) :
  existsb is_GoStartScreenCap
    (trace (StartScreenRecording globalHeader filename width height fps s
              script))
  = startup_ok s.
Proof.
  destruct (startup_ok s) eqn:Hok.
  - destruct (sampler_panics fps) eqn:Hfps.
    + rewrite (StartScreenRecording_sampler_panics _ _ _ _ _ _ script Hok Hfps).
      cbn [trace status]. reflexivity.
    + destruct (StartScreenRecording_running globalHeader filename width
                  height fps s script Hok Hfps)
        as [(_ & _ & ->)|(_ & _ & ->)];
        rewrite existsb_app; reflexivity.
  - apply StartScreenRecording_failed_startup. exact Hok.
Qed.

(** ** Timestamps *)

(** The frames submitted by a session carry, in order, the wrapped products
    of their position and the increment. *)
Lemma submitted_frame_pts (globalHeader : Z) (filename : string)
    (width height fps : Z) (s : Startup) (script : list LoopEvent)
    (k : nat) (ts : Z) :
  nth_error
    (stamps (trace (StartScreenRecording globalHeader filename width height
                      fps s script))) k = Some ts ->
  ts = frame_pts fps (Z.of_nat k).
Proof.
  destruct (startup_ok s) eqn:Hok.
  - destruct (sampler_panics fps) eqn:Hfps.
    + rewrite (StartScreenRecording_sampler_panics _ _ _ _ _ _ script Hok Hfps).
      cbn [trace status].
      destruct k; discriminate.
    + pose proof (record_loop_facts (Z.quot 90000 fps) (NewRational 1 90000)
                    (stream_time_base s) script 0) as (L1 & _ & _ & _ & L5 & _).
      assert (Hd : forall t, forallb is_loop_deferred t = true -> stamps t = []).
      { induction t as [|c t IHt]; [reflexivity|]. simpl.
        destruct c; try discriminate; exact IHt. }
      destruct (StartScreenRecording_running globalHeader filename width
                  height fps s script Hok Hfps)
        as [(_ & _ & ->)|(_ & _ & ->)];
        rewrite ?stamps_app, ?(Hd _ L5); simpl; rewrite ?app_nil_r;
        intros Hk; rewrite (L1 k ts Hk); unfold frame_pts, Int64.mul;
        f_equal.
  - destruct (StartScreenRecording_failed_startup globalHeader filename width
                height fps s script Hok) as (_ & _ & _ & -> & _).
    destruct k; discriminate.
Qed.

(** C1, amended.  The [k]-th frame a session submits (counting from 0) is
    stamped with the 64-bit product of [k] and [90000 / fps]; as long as the
    mathematical product fits a signed 64-bit integer, this is exactly
    [k * (90000 / fps)], with no accumulated drift. *)
Theorem frame_pts_exact_in_range (globalHeader : Z) (filename : string)
    (width height fps : Z) (s : Startup) (script : list LoopEvent)
    (k : nat) (ts : Z) :
  nth_error
    (stamps (trace (StartScreenRecording globalHeader filename width height
                      fps s script))) k = Some ts ->
  Int64.in_range (Z.of_nat k * Z.quot 90000 fps) ->
  ts = Z.of_nat k * Z.quot 90000 fps.
Proof.
  intros Hk Hr. rewrite (submitted_frame_pts _ _ _ _ _ _ _ _ _ Hk).
  unfold frame_pts, Int64.mul. apply Int64_wrap_small. exact Hr.
Qed.

(** *** A long session *)

Lemma conv_ok_returns (img : RGBA) :
  status (ImageRGBAtoAVFrame img conv_ok)
  = Returned (Some (mkFrame (Dx img) (Dy img) PixelFormatYuv420P NoPtsValue), None).
Proof. reflexivity. Qed.

Lemma record_loop_quiet_iteration (pts : Z) (enc st : Rational) (fn : Z)
    (img : RGBA) (rest : list LoopEvent) :
  record_loop pts enc st fn (quiet_iteration img :: rest)
  = mkGo ([ RecvImg img;
            CallImageRGBAtoAVFrame img (ImageRGBAtoAVFrame img conv_ok);
            SendFrame (Some (mkFrame (Dx img) (Dy img) PixelFormatYuv420P
                                      (Int64.mul fn pts))) None;
            AllocPacket true;
            ReceivePacket (inr ErrEagain) ]
          ++ calls (record_loop pts enc st (Int64.add fn 1) rest))
         (deferred (record_loop pts enc st (Int64.add fn 1) rest)
          ++ [PacketFree])
         (ending (record_loop pts enc st (Int64.add fn 1) rest)).
Proof.
  unfold quiet_iteration. cbn [record_loop].
  rewrite conv_ok_returns.
  generalize (ImageRGBAtoAVFrame img conv_ok). intros res.
  generalize (record_loop pts enc st (Int64.add fn 1) rest). intros l.
  generalize (Int64.mul fn pts). intros ts.
  unfold bind. cbn. rewrite !app_nil_r. reflexivity.
Qed.

Lemma quiet_session_stamps (pts : Z) (enc st : Rational) (img : RGBA)
    (n : nat) (fn : Z) :
  List.length
    (stamps (calls (record_loop pts enc st fn (repeat (quiet_iteration img) n))))
  = n.
Proof.
  revert fn. induction n as [|n IH]; intros fn; [reflexivity|].
  cbn [repeat]. rewrite record_loop_quiet_iteration. cbn [calls].
  rewrite stamps_app, length_app, IH. reflexivity.
Qed.

Lemma quiet_session_blocked (pts : Z) (enc st : Rational) (img : RGBA)
    (n : nat) (fn : Z) :
  ending (record_loop pts enc st fn (repeat (quiet_iteration img) n)) = Blocked.
Proof.
  revert fn. induction n as [|n IH]; intros fn; [reflexivity|].
  cbn [repeat]. rewrite record_loop_quiet_iteration. cbn [ending]. apply IH.
Qed.

(** C1, as the spec has it: refuted by a session at one frame per second
    that has submitted more than 2^47 frames; the product of the counter
    2^47 and the increment 90000 does not fit 64 bits and wraps around. *)
Lemma frame_pts_wraps_in_a_long_session :
  ~ every_submitted_frame_exact 1
      (trace (StartScreenRecording 4194304 "output.mp4" 1920 1080 1
                startup_all_ok
                (repeat (quiet_iteration bitmap) (Z.to_nat (2 ^ 47 + 1))))).
Proof.
  intros H.
  set (n := Z.to_nat (2 ^ 47 + 1)) in *.
  set (r := StartScreenRecording 4194304 "output.mp4" 1920 1080 1
              startup_all_ok (repeat (quiet_iteration bitmap) n)) in *.
  assert (Hlen : List.length (stamps (trace r)) = n).
  { destruct (StartScreenRecording_running 4194304 "output.mp4" 1920 1080 1
                startup_all_ok (repeat (quiet_iteration bitmap) n)
                eq_refl eq_refl)
      as [(_ & _ & Ht)|(He & _ & _)].
    - fold r in Ht. rewrite Ht, stamps_app, length_app.
      rewrite quiet_session_stamps. reflexivity.
    - rewrite quiet_session_blocked in He. discriminate. }
  destruct (nth_error (stamps (trace r)) (Z.to_nat (2 ^ 47))) as [ts|] eqn:E.
  - pose proof (H _ _ E) as H1.
    pose proof (submitted_frame_pts _ _ _ _ _ _ _ _ _ E) as H2.
    rewrite Z2Nat.id in H1, H2 by (apply Z.pow_nonneg; lia).
    rewrite H2 in H1. vm_compute in H1. discriminate H1.
  - apply nth_error_None in E. rewrite Hlen in E. subst n.
    apply Nat2Z.inj_le in E.
    rewrite !Z2Nat.id in E by (vm_compute; discriminate).
    vm_compute in E. apply E. reflexivity.
Qed.

(** ** Stopping *)

Lemma after_first_none {A} (P : A -> bool) (t : list A) :
  existsb P t = false -> after_first P t = [].
Proof.
  induction t as [|c t IH]; simpl; [reflexivity|].
  destruct (P c); simpl; [discriminate | exact IH].
Qed.

Lemma loop_deferred_is_cleanup (t : list RecCall) :
  forallb is_loop_deferred t = true -> forallb is_cleanup t = true.
Proof.
  induction t as [|c t IH]; simpl; [reflexivity|].
  destruct c; simpl; try discriminate; exact IH.
Qed.

(** C2, as the spec has it: refuted by a session that is cancelled as soon
    as it runs.  The trailer is written, and neither a "no more frames"
    signal nor a drain comes before it. *)
Lemma no_flush_when_cancelled :
  ~ flushed_before_trailer (trace cancelled_at_once).
Proof.
  intros H. specialize (H eq_refl). discriminate H.
Qed.

(** C2, amended.  No session ever submits the "no more frames" signal.
    Once the main loop observes cancellation or a fatal error, it makes no
    further call of its own: what follows in the trace are the deferred
    calls only, and the trailer write is among them. *)
Theorem stop_runs_finalizers_without_flush (globalHeader : Z)
    (filename : string) (width height fps : Z) (s : Startup)
    (script : list LoopEvent) :
  let r := StartScreenRecording globalHeader filename width height fps s
             script in
  existsb is_flush_signal (trace r) = false /\
  forallb is_cleanup (after_first is_stop_observation (trace r)) = true /\
  (existsb is_stop_observation (trace r) = true ->
   status r = Returned tt /\
   existsb is_WriteTrailer (after_first is_stop_observation (trace r)) = true).
Proof.
  intros r. subst r.
  destruct (startup_ok s) eqn:Hok.
  - destruct (sampler_panics fps) eqn:Hfps.
    + rewrite (StartScreenRecording_sampler_panics _ _ _ _ _ _ script Hok Hfps).
      cbn [trace status].
      repeat split; try reflexivity; discriminate.
    + pose proof (record_loop_facts (Z.quot 90000 fps) (NewRational 1 90000)
                    (stream_time_base s) script 0)
        as (_ & L2 & _ & _ & L5 & L6).
      cbv zeta in L2, L5, L6.
      assert (S1 : existsb is_stop_observation
                     (startup_calls globalHeader filename width height fps s)
                   = false) by reflexivity.
      assert (S2 : existsb is_flush_signal
                     (startup_calls globalHeader filename width height fps s)
                   = false) by reflexivity.
      destruct (StartScreenRecording_running globalHeader filename width
                  height fps s script Hok Hfps)
        as [(He & Hs & ->)|(He & Hs & ->)]; rewrite He in L6.
      * rewrite existsb_app, S2, L2.
        rewrite after_first_none by (rewrite existsb_app, S1, L6; reflexivity).
        rewrite existsb_app, S1, L6.
        repeat split; try reflexivity; discriminate.
      * destruct L6 as [L6 L7].
        rewrite after_first_app_none by exact S1.
        rewrite after_first_app_some, L7 by exact L6. cbn [app].
        rewrite !existsb_app, S2, L2, forallb_app.
        rewrite (loop_deferred_is_cleanup _ L5).
        assert (D : existsb is_flush_signal
                      (deferred (record_loop (Z.quot 90000 fps)
                         (NewRational 1 90000) (stream_time_base s)
                         (Int64.wrap 0) script)) = false).
        { revert L5. generalize (deferred (record_loop (Z.quot 90000 fps)
                         (NewRational 1 90000) (stream_time_base s)
                         (Int64.wrap 0) script)).
          induction l as [|c l IHl]; simpl; [reflexivity|].
          destruct c; simpl; try discriminate; exact IHl. }
        rewrite D. simpl. rewrite !orb_true_r.
        repeat split; try reflexivity. exact Hs.
  - destruct (StartScreenRecording_failed_startup globalHeader filename width
                height fps s script Hok)
      as (_ & _ & _ & _ & F1 & F2 & _).
    rewrite F1, F2, after_first_none by exact F2.
    repeat split; try reflexivity; discriminate.
Qed.

(** ** Rescaling before every write *)

Lemma writes_follow_rescale_no_write P prev (t : list RecCall) :
  existsb is_WriteFrame t = false -> writes_follow_rescale P prev t = true.
Proof.
  revert prev. induction t as [|c t IH]; intros prev; simpl; [reflexivity|].
  intros H. apply orb_false_iff in H as [Hc Ht].
  rewrite (IH _ Ht). destruct c; try reflexivity; discriminate.
Qed.

Lemma loop_deferred_no_write (t : list RecCall) :
  forallb is_loop_deferred t = true -> existsb is_WriteFrame t = false.
Proof.
  induction t as [|c t IH]; simpl; [reflexivity|].
  destruct c; simpl; try discriminate; exact IH.
Qed.

(** C5, as the spec has it: refuted by a session that writes one packet.
    The write follows a rescale, but from 1/90000 to 1/90000: the code set
    the stream's time base to the encoder's. *)
Lemma rescale_between_equal_time_bases :
  rescaled_between_distinct_time_bases (trace one_packet_session) = false /\
  rescaled_from_to (NewRational 1 90000) (NewRational 1 90000)
                   (trace one_packet_session) = true /\
  existsb is_WriteFrame (trace one_packet_session) = true.
Proof. repeat split; reflexivity. Qed.

(** C5, amended.  In every session each packet write comes directly after a
    rescale of the packet from the encoder's time base, 1/90000, to the time
    base of the stream; the latter is the encoder's own time base, which the
    code gave the stream, unless the container replaced it while writing the
    header. *)
Theorem every_write_follows_rescale (globalHeader : Z)
    (filename : string) (width height fps : Z) (s : Startup)
    (script : list LoopEvent) :
  rescaled_from_to (NewRational 1 90000) (stream_time_base s)
    (trace (StartScreenRecording globalHeader filename width height fps s
              script)) = true /\
  stream_time_base s =
    match headerTimeBase s with
    | Some tb => tb
    | None => NewRational 1 90000
    end.
Proof.
  split; [|reflexivity]. unfold rescaled_from_to.
  destruct (startup_ok s) eqn:Hok.
  - assert (S1 : forall f, existsb is_WriteFrame
                     (startup_calls globalHeader filename width height f s)
                   = false) by reflexivity.
    assert (S2 : existsb is_WriteFrame (finalizers s) = false) by reflexivity.
    destruct (sampler_panics fps) eqn:Hfps.
    + rewrite (StartScreenRecording_sampler_panics _ _ _ _ _ _ script Hok Hfps).
      cbn [trace status].
      apply writes_follow_rescale_no_write. apply S1.
    + pose proof (record_loop_facts (Z.quot 90000 fps) (NewRational 1 90000)
                    (stream_time_base s) script 0)
        as (_ & _ & _ & L4 & L5 & _).
      cbv zeta in L4, L5. fold (rescale_ok (NewRational 1 90000) (stream_time_base s)).
      destruct (StartScreenRecording_running globalHeader filename width
                  height fps s script Hok Hfps)
        as [(_ & _ & ->)|(_ & _ & ->)].
      * rewrite writes_follow_rescale_app, L4.
        rewrite writes_follow_rescale_no_write by apply S1. reflexivity.
      * rewrite writes_follow_rescale_app, writes_follow_rescale_app, L4.
        rewrite (writes_follow_rescale_no_write _ None) by apply S1.
        rewrite writes_follow_rescale_no_write; [reflexivity|].
        apply existsb_app_false; [|exact S2].
        apply loop_deferred_no_write. exact L5.
  - destruct (StartScreenRecording_failed_startup globalHeader filename width
                height fps s script Hok)
      as (_ & _ & _ & _ & _ & _ & F & _).
    apply writes_follow_rescale_no_write. exact F.
Qed.

(** ** The container lifecycle *)

(** A trace the lifecycle accepts has as many header writes and trailer
    writes as the difference between its two end states tells. *)
Lemma lifecycle_counts (t : list RecCall) (st st' : Lifecycle) :
  lifecycle st t = Some st' ->
  (count is_WriteHeader t + header_written st = header_written st' /\
   count is_WriteTrailer t + trailer_written st = trailer_written st')%nat.
Proof.
  revert st. induction t as [|c t IH]; intros st; simpl.
  - intros [= ->]. split; reflexivity.
  - destruct (lifecycle_step st c) as [st1|] eqn:E; [|discriminate].
    intros H. destruct (IH _ H) as [IH1 IH2]. unfold count in *.
    destruct c; simpl in *;
      try (injection E as <-; split; assumption);
      destruct st as [[|] [|]| | | | | |]; simpl in E;
      try discriminate;
      try (destruct err; try discriminate);
      injection E as <-; simpl in *; split; lia.
Qed.

Lemma lifecycle_loop_deferred (st : Lifecycle) (t : list RecCall) :
  forallb is_loop_deferred t = true -> lifecycle st t = Some st.
Proof.
  induction t as [|c t IH]; simpl; [reflexivity|].
  destruct c; simpl; try discriminate; exact IH.
Qed.

(** Once the header write was called, the lifecycle accepts no other. *)
Lemma header_failure_none (t : list RecCall) (st st' : Lifecycle) :
  header_written st = 1%nat -> lifecycle st t = Some st' ->
  existsb is_header_failure t = false.
Proof.
  revert st. induction t as [|c t IH]; intros st Hst H; [reflexivity|].
  simpl in H. destruct (lifecycle_step st c) as [st1|] eqn:E; [|discriminate].
  assert (Hc : header_written st1 = 1%nat /\ is_header_failure c = false).
  { destruct c; simpl in E |- *;
      try (injection E as <-; split; [exact Hst | reflexivity]);
      destruct st; simpl in Hst; try discriminate;
      try (destruct err; try discriminate);
      injection E as <-; split; reflexivity. }
  destruct Hc as [Hc1 Hc2]. simpl. rewrite Hc2. exact (IH _ Hc1 H).
Qed.

(** C6, as the spec has it: refuted by the session whose header write
    fails.  The session has returned and its output file was opened, but no
    trailer is written, and the I/O context is released all the same, by the
    deferred call of line 111. *)
Lemma header_failure_breaks_lifecycle :
  ~ container_lifecycle_as_claimed /\
  status header_failure_session = Returned tt /\
  count is_WriteTrailer (trace header_failure_session) = 0%nat /\
  count is_IoCtxFree (trace header_failure_session) = 1%nat.
Proof.
  split; [|repeat split].
  intros H.
  destruct (H 4194304 "output.mp4"%string 1920 1080 30 startup_header_fails []
              eq_refl eq_refl)
    as (_ & _ & _ & _ & C & _).
  discriminate C.
Qed.

(** C6, amended.  The trace of every session follows the lifecycle the code
    gives the container: the header write is called after the stream took
    its codec parameters and its time base from the encoder, packets are
    written only after a header write that succeeded and before the trailer
    write, and the I/O context is released only after the trailer write was
    called, or after a header write that failed.  No session calls the
    header write or the trailer write twice.  A session whose startup
    succeeded and which has returned called each exactly once and released
    the I/O context after the trailer write.  A session whose header write
    failed has returned with no trailer write at all and has released the
    I/O context once.  (Nothing in the code closes the output file; the
    release of the I/O context is the last the code does with it.) *)
Theorem container_lifecycle_respected (globalHeader : Z)
    (filename : string) (width height fps : Z) (s : Startup)
    (script : list LoopEvent) :
  let r := StartScreenRecording globalHeader filename width height fps s
             script in
  exists st,
    lifecycle (Unopened false false) (trace r) = Some st /\
    (count is_WriteHeader (trace r) <= 1)%nat /\
    (count is_WriteTrailer (trace r) <= 1)%nat /\
    (startup_ok s = true -> status r = Returned tt ->
     st = Released /\
     count is_WriteHeader (trace r) = 1%nat /\
     count is_WriteTrailer (trace r) = 1%nat) /\
    (existsb is_header_failure (trace r) = true ->
     status r = Returned tt /\
     st = Abandoned /\
     count is_WriteHeader (trace r) = 1%nat /\
     count is_WriteTrailer (trace r) = 0%nat /\
     count is_IoCtxFree (trace r) = 1%nat).
Proof.
  intros r.
  assert (H : exists st,
             lifecycle (Unopened false false) (trace r) = Some st /\
             (startup_ok s = true -> status r = Returned tt ->
              st = Released) /\
             (existsb is_header_failure (trace r) = true ->
              status r = Returned tt /\ st = Abandoned /\
              count is_IoCtxFree (trace r) = 1%nat)).
  { subst r. destruct (startup_ok s) eqn:Hok.
    - destruct (sampler_panics fps) eqn:Hfps.
      + rewrite (StartScreenRecording_sampler_panics _ _ _ _ _ _ script Hok
                   Hfps).
        cbn [trace status].
        eexists. split; [reflexivity|]. split; discriminate.
      + pose proof (record_loop_facts (Z.quot 90000 fps) (NewRational 1 90000)
                      (stream_time_base s) script 0)
          as (_ & _ & L3 & _ & L5 & _).
        cbv zeta in L3, L5.
        assert (S1 : lifecycle (Unopened false false)
                       (startup_calls globalHeader filename width height fps s)
                     = Some Streaming) by reflexivity.
        assert (S2 : existsb is_header_failure
                       (startup_calls globalHeader filename width height fps s)
                     = false) by reflexivity.
        pose proof (header_failure_none _ Streaming Streaming eq_refl L3)
          as S3.
        pose proof (header_failure_none _ Streaming Streaming eq_refl
                      (lifecycle_loop_deferred _ _ L5)) as S4.
        destruct (StartScreenRecording_running globalHeader filename width
                    height fps s script Hok Hfps)
          as [(_ & -> & ->)|(_ & -> & ->)].
        * exists Streaming. rewrite lifecycle_app, S1. cbv beta iota.
          rewrite L3. split; [reflexivity|].
          split; [discriminate|].
          rewrite existsb_app, S2, S3. discriminate.
        * exists Released. rewrite lifecycle_app, S1. cbv beta iota.
          rewrite lifecycle_app, L3. cbv beta iota.
          rewrite lifecycle_app, (lifecycle_loop_deferred _ _ L5).
          split; [unfold finalizers; destruct (writeTrailer s); reflexivity|].
          split; [reflexivity|].
          rewrite !existsb_app, S2, S3, S4. discriminate.
    - destruct (StartScreenRecording_failed_startup globalHeader filename
                  width height fps s script Hok)
        as (F0 & _ & _ & _ & _ & _ & _ & _ & st & F & F').
      exists st. split; [exact F|]. split; [discriminate|].
      intros Hh. destruct (F' Hh) as [F1 F2]. auto. }
  destruct H as (st & Hl & Hc & Hh). exists st.
  destruct (lifecycle_counts _ _ _ Hl) as [C1 C2]. simpl in C1, C2.
  split; [exact Hl|].
  split; [destruct st; simpl in C1; lia|].
  split; [destruct st; simpl in C2; lia|].
  split.
  - intros Hok Hr. specialize (Hc Hok Hr). subst st. simpl in C1, C2.
    repeat split; lia.
  - intros Hf. destruct (Hh Hf) as (H1 & -> & H3). simpl in C1, C2.
    repeat split; try assumption; lia.
Qed.

(** ** The drain loop's outcomes *)

(** C3, as the spec has it: refuted by a session in which the encoder
    answers "stream ended" to the first drain.  The code leaves the drain
    loop as it does on "no packet ready yet" and goes on: the next bitmap is
    submitted to the encoder, and the drain that follows receives and writes
    a packet. *)
Lemma drain_resumes_after_stream_ended :
  ~ stream_end_is_terminal (trace resumed_after_stream_end) /\
  existsb is_SendFrame
    (after_first is_stream_ended (trace resumed_after_stream_end)) = true /\
  existsb is_WriteFrame
    (after_first is_stream_ended (trace resumed_after_stream_end)) = true.
Proof.
  split; [|split; reflexivity].
  unfold stream_end_is_terminal. intros H. discriminate H.
Qed.

(** C3, amended.  A drain that has received and written the packets [ps]
    and then receives the error [e]: on "no packet ready yet" and on "stream
    ended" alike it leaves the drain loop with nothing deferred, and the main
    loop goes on to its next [select] with the frame counter advanced, so a
    later bitmap is submitted and drained again; on any other error it
    defers the call on the cancellation context and returns from
    [StartScreenRecording], whatever events would follow. *)
Theorem drain_stops_on_receive_error (pts : Z) (enc st : Rational)
    (ps : list (Packet * Packet)) (e : Error) (rest : list ReceiveOutcome)
    (fn : Z) (img : RGBA) (more : list LoopEvent) :
  let receive := all_written ps ++ ReceiveError e :: rest in
  let g := drain enc st receive in
  let l := record_loop pts enc st fn
             (EvImg img conv_ok None true receive :: more) in
  let next := record_loop pts enc st (Int64.add fn 1) more in
  let submit :=
    [ RecvImg img;
      CallImageRGBAtoAVFrame img (ImageRGBAtoAVFrame img conv_ok);
      SendFrame (Some (mkFrame (Dx img) (Dy img) PixelFormatYuv420P
                                (Int64.mul fn pts))) None;
      AllocPacket true ] in
  calls g = written enc st ps ++ [ReceivePacket (inr e)] /\
  match e with
  | ErrEagain | ErrEof =>
      ending g = Next tt /\ deferred g = [] /\
      ending l = ending next /\
      calls l = submit ++ calls g ++ calls next
  | ErrNew _ | ErrCode _ =>
      ending g = Return tt /\ deferred g = [CtxDone] /\
      ending l = Return tt /\
      calls l = submit ++ calls g
  end.
Proof.
  intros receive g l next submit.
  assert (Hg : g = mkGo (written enc st ps ++ [ReceivePacket (inr e)])
                        (match e with
                         | ErrEagain | ErrEof => []
                         | _ => [CtxDone]
                         end)
                        (match e with
                         | ErrEagain | ErrEof => Next tt
                         | _ => Return tt
                         end)).
  { subst g receive. rewrite drain_written.
    destruct e; reflexivity. }
  assert (Hl : l = bind (mkGo submit [PacketFree] (Next tt))
                        (fun _ => bind g (fun _ => next))).
  { subst l submit. cbn [record_loop]. rewrite conv_ok_returns.
    fold g next.
    generalize (ImageRGBAtoAVFrame img conv_ok). intros res.
    generalize g next (Int64.mul fn pts). intros g' next' ts.
    unfold bind, SetPts. cbn.
    destruct (ending g'); cbn; rewrite ?app_nil_r; reflexivity. }
  rewrite Hl, Hg. clear Hl Hg. split; [reflexivity|].
  generalize submit next (written enc st ps). intros sub nx wr.
  destruct e; unfold bind; cbn; repeat split.
Qed.

(** ** Scenarios *)

(** The spec's scenario: 30 frames per second, ten bitmaps in order. *)
Example thirty_fps_ten_bitmaps :
  stamps (trace (StartScreenRecording 4194304 "output.mp4" 1920 1080 30
                   startup_all_ok (repeat (quiet_iteration bitmap) 10)))
  = [0; 3000; 6000; 9000; 12000; 15000; 18000; 21000; 24000; 27000].
Proof. reflexivity. Qed.

(** A frame rate above the time base frequency stamps every frame with 0. *)
Example fps_above_time_base_frequency :
  stamps (trace (StartScreenRecording 4194304 "output.mp4" 1920 1080 100000
                   startup_all_ok (repeat (quiet_iteration bitmap) 3)))
  = [0; 0; 0].
Proof. reflexivity. Qed.

(** A frame rate of zero panics on the division, in the sampler as in the
    orchestrator, after the sampler was started and before any frame is
    submitted. *)
Example zero_fps_panics :
  status (StartScreenRecording 4194304 "output.mp4" 1920 1080 0
            startup_all_ok [quiet_iteration bitmap]) = Panicked /\
  stamps (trace (StartScreenRecording 4194304 "output.mp4" 1920 1080 0
                   startup_all_ok [quiet_iteration bitmap])) = [].
Proof. split; reflexivity. Qed.

(** A negative frame rate: the sampler's ticker refuses the interval, the
    process ends with the container's header written and nothing after
    it. *)
Example negative_fps_panics :
  StartScreenRecording 4194304 "output.mp4" 1920 1080 (-30) startup_all_ok
                       [quiet_iteration bitmap; EvDone]
  = mkRun (startup_calls 4194304 "output.mp4" 1920 1080 (-30) startup_all_ok)
          Panicked.
Proof. reflexivity. Qed.

(** The whole trace of the session whose header write fails. *)
Example header_failure_session_trace :
  map (fun c => match c with
                | CallNewH264EncoderCodec _ _ _ _ _ => SetupFFmpeg
                | _ => c
                end) (trace header_failure_session)
  = [ SetupFFmpeg;
      AllocOutputFormatContext "output.mp4" None;
      SetupFFmpeg;
      NewStream true;
      EncOpen None;
      FromCodecContext None;
      SetTimeBase (NewRational 1 90000);
      OpenIOContext "output.mp4" None;
      SetPb;
      WriteHeader (Some (ErrCode (-22)));
      IoCtxFree;
      EncCtxFree;
      OutputCtxFree ] /\
  status header_failure_session = Returned tt.
Proof. split; reflexivity. Qed.

(** The session that writes one packet and is then cancelled follows the
    spec's sentences on the container to the letter. *)
Example one_packet_session_lifecycle :
  count is_WriteHeader (trace one_packet_session) = 1%nat /\
  existsb is_parameters_copied
    (before_first is_WriteHeader (trace one_packet_session)) = true /\
  existsb is_time_base_set
    (before_first is_WriteHeader (trace one_packet_session)) = true /\
  existsb is_WriteFrame
    (before_first is_WriteHeader (trace one_packet_session)) = false /\
  count is_WriteTrailer (trace one_packet_session) = 1%nat /\
  existsb is_WriteFrame
    (after_first is_WriteTrailer (trace one_packet_session)) = false /\
  existsb is_IoCtxFree
    (before_first is_WriteTrailer (trace one_packet_session)) = false.
Proof. repeat split. Qed.

(** A packet whose timestamp the rescaling rewrites: the container gave the
    stream the time base 1/1000, and the packet is written as rescaled. *)
Example rescaled_packet_is_written :
  filter is_WriteFrame
    (trace (StartScreenRecording 4194304 "output.mp4" 1920 1080 30
              (mkStartup None 0
                 (mkCodecOutcomes (Some CodecH264) (Some fresh_context))
                 true None None None None (Some (NewRational 1 1000)) None)
              [ EvImg bitmap conv_ok None true
                  [Received (mkPacket 12000 []) (mkPacket 133 []) None;
                   ReceiveError ErrEagain];
                EvDone ]))
  = [WriteFrame (mkPacket 133 []) None].
Proof. reflexivity. Qed.

(** Widths and frame rates are stored as C [int]s. *)
Example narrowing_to_32_bits :
  NewRational 4294967326 1 = mkRational 30 1 /\
  CInt 4294967298 = 2 /\ CInt 1920 = 1920 /\ CInt (-1) = -1.
Proof. repeat split. Qed.

(** The whole trace of the session that writes one packet and is then
    cancelled. *)
Example one_packet_session_trace :
  map (fun c => match c with
                | CallNewH264EncoderCodec _ _ _ _ _ => SetupFFmpeg
                | CallImageRGBAtoAVFrame _ _ => SetupFFmpeg
                | _ => c
                end) (trace one_packet_session)
  = [ SetupFFmpeg;
      AllocOutputFormatContext "output.mp4" None;
      SetupFFmpeg;
      NewStream true;
      EncOpen None;
      FromCodecContext None;
      SetTimeBase (NewRational 1 90000);
      OpenIOContext "output.mp4" None;
      SetPb;
      WriteHeader None;
      NotifyContext;
      GoStartScreenCap 30;
      RecvImg bitmap;
      SetupFFmpeg;
      SendFrame (Some (mkFrame 2 2 PixelFormatYuv420P 0)) None;
      AllocPacket true;
      ReceivePacket (inl (mkPacket 0 []));
      RescaleTs (NewRational 1 90000) (NewRational 1 90000);
      WriteFrame (mkPacket 0 []) None;
      ReceivePacket (inr ErrEagain);
      RecvCtxDone;
      PacketFree;
      Stop;
      WriteTrailer None;
      IoCtxFree;
      EncCtxFree;
      OutputCtxFree ] /\
  status one_packet_session = Returned tt.
Proof. split; reflexivity. Qed.

(** A sampler that captures twice and is then cancelled. *)
Example sampler_cancelled_after_two_captures :
  StartScreenCap 30
    [ mkSelectRound false true CaseTick (inl bitmap) true;
      mkSelectRound false true CaseTick (inl bitmap) true;
      mkSelectRound true false CaseTick (inl bitmap) true ]
  = mkRun [ GetDisplayBounds 0; NewTicker 33333333;
            RecvTick; CaptureRect (inl bitmap); SendImg bitmap;
            RecvTick; CaptureRect (inl bitmap); SendImg bitmap;
            RecvDone; TickerStop ]
          (Returned None).
Proof. reflexivity. Qed.

(** A sampler whose consumer is gone stays blocked on the handoff. *)
Example sampler_blocked_on_handoff :
  status (StartScreenCap 30
            [mkSelectRound false true CaseTick (inl bitmap) false;
             mkSelectRound true false CaseDone (inl bitmap) true])
  = Running.
Proof. reflexivity. Qed.

(** ** Instances *)

Lemma frame_pts_exact_in_range_witness :
  nth_error
    (stamps (trace (StartScreenRecording 4194304 "output.mp4" 1920 1080 30
                      startup_all_ok (repeat (quiet_iteration bitmap) 3))))
    2 = Some 6000 /\
  Int64.in_range (Z.of_nat 2 * Z.quot 90000 30) /\
  6000 = Z.of_nat 2 * Z.quot 90000 30.
Proof.
  split; [reflexivity|].
  assert (Hr : Int64.in_range (Z.of_nat 2 * Z.quot 90000 30)).
  { vm_compute. split; [discriminate | reflexivity]. }
  split; [exact Hr|].
  apply (frame_pts_exact_in_range 4194304 "output.mp4" 1920 1080 30
           startup_all_ok (repeat (quiet_iteration bitmap) 3) 2 6000);
    [reflexivity | exact Hr].
Defined.

Lemma stop_runs_finalizers_without_flush_witness :
  existsb is_stop_observation (trace cancelled_at_once) = true /\
  status cancelled_at_once = Returned tt /\
  existsb is_WriteTrailer
    (after_first is_stop_observation (trace cancelled_at_once)) = true.
Proof.
  split; [reflexivity|].
  apply (stop_runs_finalizers_without_flush 4194304 "output.mp4" 1920 1080 30
           startup_all_ok [EvDone]).
  reflexivity.
Defined.

Lemma cancellation_taken_unless_tick_picked_witness :
  screencap_loop [mkSelectRound true false CaseTick (inl bitmap) true]
  = mkGo [RecvDone] [] (Return None).
Proof.
  apply (cancellation_taken_unless_tick_picked
           (mkSelectRound true false CaseTick (inl bitmap) true) []);
    [reflexivity | left; reflexivity].
Defined.

Lemma container_lifecycle_respected_witness :
  (startup_ok startup_all_ok = true /\
   status one_packet_session = Returned tt /\
   exists st,
     lifecycle (Unopened false false) (trace one_packet_session) = Some st /\
     st = Released /\
     count is_WriteHeader (trace one_packet_session) = 1%nat /\
     count is_WriteTrailer (trace one_packet_session) = 1%nat) /\
  (existsb is_header_failure (trace header_failure_session) = true /\
   exists st,
     lifecycle (Unopened false false) (trace header_failure_session)
       = Some st /\
     st = Abandoned /\
     count is_WriteTrailer (trace header_failure_session) = 0%nat /\
     count is_IoCtxFree (trace header_failure_session) = 1%nat).
Proof.
  split.
  - split; [reflexivity|]. split; [reflexivity|].
    destruct (container_lifecycle_respected 4194304 "output.mp4" 1920 1080 30
                startup_all_ok
                [ EvImg bitmap conv_ok None true
                    [Received (mkPacket 0 []) (mkPacket 0 []) None;
                     ReceiveError ErrEagain];
                  EvDone ])
      as (st & Hl & _ & _ & Hc & _).
    exists st. split; [exact Hl|]. apply Hc; reflexivity.
  - split; [reflexivity|].
    destruct (container_lifecycle_respected 4194304 "output.mp4" 1920 1080 30
                startup_header_fails [])
      as (st & Hl & _ & _ & _ & Hf).
    exists st. split; [exact Hl|].
    destruct (Hf eq_refl) as (_ & H2 & _ & H4 & H5).
    exact (conj H2 (conj H4 H5)).
Defined.

Lemma acquisition_failure_aborts_before_capture_witness :
  acquisition_fails startup_without_codec = true /\
  status (StartScreenRecording 4194304 "output.mp4" 1920 1080 30
            startup_without_codec [quiet_iteration bitmap]) = Returned tt /\
  existsb is_GoStartScreenCap
    (trace (StartScreenRecording 4194304 "output.mp4" 1920 1080 30
              startup_without_codec [quiet_iteration bitmap])) = false /\
  existsb is_RecvImg
    (trace (StartScreenRecording 4194304 "output.mp4" 1920 1080 30
              startup_without_codec [quiet_iteration bitmap])) = false.
Proof.
  split; [reflexivity|].
  apply (acquisition_failure_aborts_before_capture 4194304 "output.mp4"
           1920 1080 30 startup_without_codec [quiet_iteration bitmap]).
  reflexivity.
Defined.

Lemma NewH264EncoderCodec_parameters_witness :
  Int32.in_range 60 /\
  exists codecCtx,
    NewH264EncoderCodec 4194304 1920 1080 60 0
      (mkCodecOutcomes (Some CodecH264) (Some fresh_context))
      = (Some CodecH264, Some codecCtx, None) /\
    Num (TimeBase codecCtx) = 1 /\ Den (TimeBase codecCtx) = 90000 /\
    Num (Framerate codecCtx) = 60 /\ Den (Framerate codecCtx) = 1 /\
    CtxPixelFormat codecCtx = PixelFormatYuv420P /\
    Z.testbit (Flags codecCtx) 22 = true.
Proof.
  assert (Hr : Int32.in_range 60)
    by (vm_compute; split; [discriminate | reflexivity]).
  split; [exact Hr|].
  destruct (NewH264EncoderCodec_parameters 4194304 1920 1080 60 0
              (mkCodecOutcomes (Some CodecH264) (Some fresh_context))
              CodecH264 fresh_context eq_refl eq_refl)
    as (codecCtx & H1 & H2 & H3 & _ & H5 & H6 & H7 & _ & H9).
  exists codecCtx.
  repeat split; try assumption.
  - apply H6. exact Hr.
  - apply H9. reflexivity.
Defined.


(** * Further properties *)

(** ** The conversion *)

(** X1.  The conversion fails fast: it returns the error of the first
    library call that fails, with a nil frame, and it returns a frame, with a
    nil error, exactly when all six fallible calls succeed.  Never both, never
    neither; the frame that is returned has been given no timestamp. *)
Theorem ImageRGBAtoAVFrame_first_error (img : RGBA) (o : ConvOutcomes) :
  match first_error o with
  | Some e => status (ImageRGBAtoAVFrame img o) = Returned (None, Some e)
  | None =>
      exists f, status (ImageRGBAtoAVFrame img o) = Returned (Some f, None) /\
                Pts f = NoPtsValue
  end.
Proof. case_outcomes o; try reflexivity. eexists. split; reflexivity. Qed.

(** X2.  A library call fails during the conversion exactly when an error
    is returned, and nothing is called after the failing call but the
    releases that were deferred: no later step is attempted, none is
    retried. *)
Theorem ImageRGBAtoAVFrame_stops_at_failure (img : RGBA) (o : ConvOutcomes) :
  let r := ImageRGBAtoAVFrame img o in
  existsb is_failed_conv_call (trace r)
    = match returned_error r with Some _ => true | None => false end /\
  forallb is_conv_release (after_first is_failed_conv_call (trace r)) = true /\
  (List.length (filter is_failed_conv_call (trace r)) <= 1)%nat.
Proof.
  case_outcomes o; repeat split; try reflexivity; simpl; lia.
Qed.


(** X4.  The releases of the conversion are its last calls, in the reverse
    order of acquisition: the scale context first, if it was built, then the
    intermediate frame; each is released once, and nothing is used after
    being released. *)
Theorem ImageRGBAtoAVFrame_releases_last (img : RGBA) (o : ConvOutcomes) :
  let t := trace (ImageRGBAtoAVFrame img o) in
  t = before_first is_conv_release t
      ++ (if sws_built o then [SwsFree; FrameFree srcFrame]
          else [FrameFree srcFrame]).
Proof. case_outcomes o; reflexivity. Qed.

(** ** The encoder's construction *)

(** X5.  Construction fails exactly when the codec is not found or its
    context cannot be allocated, each with its own error, and then returns
    neither a codec nor a context; when it succeeds it returns both, with a
    nil error. *)
Theorem NewH264EncoderCodec_errors
    (globalHeader width height fps bitrate : Z) (o : CodecOutcomes) :
  match NewH264EncoderCodec globalHeader width height fps bitrate o with
  | (Some codec, Some _, None) =>
      FindEncoder o = Some codec /\ AllocCodecContext o <> None
  | (None, None, Some e) =>
      (FindEncoder o = None /\ e = ErrNew "error finding h264 encoder") \/
      (FindEncoder o <> None /\ AllocCodecContext o = None /\
       e = ErrNew "error allocating codec context")
  | _ => False
  end.
Proof.
  unfold NewH264EncoderCodec.
  destruct (FindEncoder o) as [codec|]; [|left; split; reflexivity].
  destruct (AllocCodecContext o) as [c0|].
  - split; [reflexivity | discriminate].
  - right. repeat split; discriminate.
Qed.

(** X6.  Construction stores the width and the height in the context as C
    [int]s, so unchanged when they fit 32 bits, and the bit rate unchanged;
    adding the global-header flag clears none of the bits the flags of the
    allocated context had set. *)
Theorem NewH264EncoderCodec_passes_on
    (globalHeader width height fps bitrate : Z) (o : CodecOutcomes)
    (codec : Codec) (c0 codecCtx : CodecContext) :
  AllocCodecContext o = Some c0 ->
  NewH264EncoderCodec globalHeader width height fps bitrate o
    = (Some codec, Some codecCtx, None) ->
  CtxWidth codecCtx = Int32.wrap width /\
  CtxHeight codecCtx = Int32.wrap height /\
  (Int32.in_range width -> CtxWidth codecCtx = width) /\
  (Int32.in_range height -> CtxHeight codecCtx = height) /\
  BitRate codecCtx = bitrate /\
  (forall n, Z.testbit (Flags c0) n = true ->
             Z.testbit (Flags codecCtx) n = true).
Proof.
  unfold NewH264EncoderCodec. intros Ha.
  destruct (FindEncoder o); [|discriminate]. rewrite Ha.
  intros [= _ <-]. cbn [CtxWidth CtxHeight BitRate Flags]. unfold CInt.
  repeat split; try (intros Hr; apply Int32_wrap_small; exact Hr).
  intros n Hn. apply FlagsAdd_keeps. exact Hn.
Qed.

(** ** The sampler, continued *)

Lemma captured_app (t1 t2 : list CapCall) :
  captured (t1 ++ t2) = captured t1 ++ captured t2.
Proof. unfold captured. apply flat_map_app. Qed.

Lemma forwarded_app (t1 t2 : list CapCall) :
  forwarded (t1 ++ t2) = forwarded t1 ++ forwarded t2.
Proof. unfold forwarded. apply flat_map_app. Qed.

Lemma cap_count_app (P : CapCall -> bool) (t1 t2 : list CapCall) :
  cap_count P (t1 ++ t2) = (cap_count P t1 + cap_count P t2)%nat.
Proof. unfold cap_count. rewrite filter_app, length_app. reflexivity. Qed.

Lemma cap_count_none (P Q : CapCall -> bool) (t : list CapCall) :
  (forall c, Q c = true -> P c = false) ->
  forallb Q t = true -> cap_count P t = 0%nat.
Proof.
  intros HPQ. induction t as [|c t IH]; simpl; [reflexivity|].
  intros H. apply andb_true_iff in H as [Hc Ht].
  unfold cap_count in *. simpl. rewrite (HPQ c Hc). apply IH. exact Ht.
Qed.

(** What the loop of the sampler keeps: it calls nothing but its four
    calls, it captures once per tick taken, and it forwards the bitmaps in
    the order of capture. *)
Lemma screencap_loop_keeps (script : list SelectRound) :
  forallb is_sampler_loop_call (calls (screencap_loop script)) = true /\
  cap_count is_RecvTick (calls (screencap_loop script))
    = cap_count is_CaptureRect (calls (screencap_loop script)) /\
  match ending (screencap_loop script) with
  | Return _ =>
      captured (calls (screencap_loop script))
        = forwarded (calls (screencap_loop script))
  | Blocked =>
      captured (calls (screencap_loop script))
        = forwarded (calls (screencap_loop script)) \/
      exists img,
        captured (calls (screencap_loop script))
          = forwarded (calls (screencap_loop script)) ++ [img]
  | Next _ | Panic => False
  end.
Proof.
  unfold captured, forwarded, cap_count.
  induction script as [|r rest (IH1 & IH2 & IH3)].
  - simpl. repeat split. left. reflexivity.
  - cbn [screencap_loop].
    destruct (select2 (done_ready r) (tick_ready r) (pick r)) as [[|]|].
    + repeat split.
    + destruct (capture r) as [img|err].
      * destruct (handoff r).
        -- unfold bind; cbn.
           destruct (ending (screencap_loop rest)) as [x|e| |];
             cbn; try contradiction.
           ++ rewrite IH1, IH2, IH3. repeat split.
           ++ rewrite IH1, IH2. repeat split.
              destruct IH3 as [-> | [img' ->]];
                [left | right; exists img']; reflexivity.
        -- repeat split. right. exists img. reflexivity.
      * repeat split.
    + repeat split; assumption.
Qed.

(** X7.  The sampler panics, before it captures anything, exactly when the
    frame rate is not positive or exceeds one frame per nanosecond: the
    division panics at zero, and the ticker refuses an interval that is not
    positive.  For a frame rate between 1 and 10^9 it never panics, whatever
    happens afterwards. *)
Theorem StartScreenCap_panics_iff (fps : Z) (script : list SelectRound) :
  status (StartScreenCap fps script) = Panicked
  <-> (fps <= 0 \/ 1000000000 < fps).
Proof.
  unfold StartScreenCap, StartScreenCap_body.
  destruct (Z.eqb_spec fps 0) as [->|Hfps].
  - split; [left; lia | reflexivity].
  - pose proof (ticker_interval_not_positive fps Hfps) as Hq.
    unfold Second in *.
    destruct (Z.leb_spec (Z.quot 1000000000 fps) 0) as [Hle|Hgt].
    + split; [intros _; apply Hq in Hle; lia | reflexivity].
    + destruct (screencap_loop_endings script) as [_ He].
      unfold exec, bind; cbn.
      destruct (ending (screencap_loop script)) as [x|e| |];
        cbn; try contradiction;
        (split; [discriminate | intros H; exfalso;
                 assert (Z.quot 1000000000 fps <= 0) by (apply Hq; lia); lia]).
Qed.

(** The trace of a sampler that panics. *)
Lemma StartScreenCap_panicked (fps : Z) (script : list SelectRound) :
  ~ (0 < fps <= 1000000000) ->
  let r := StartScreenCap fps script in
  status r = Panicked /\
  (trace r = [] \/
   trace r = [GetDisplayBounds 0; NewTicker (Z.quot Second fps)]).
Proof.
  intros Hfps r. subst r. unfold StartScreenCap, StartScreenCap_body.
  destruct (Z.eqb_spec fps 0) as [->|Hnz]; [split; [reflexivity | left; reflexivity]|].
  pose proof (ticker_interval_not_positive fps Hnz) as Hq.
  destruct (Z.leb_spec (Z.quot Second fps) 0) as [Hle|Hgt].
  - split; [reflexivity | right; reflexivity].
  - exfalso. assert (Z.quot Second fps <= 0); [|lia].
    apply Hq. unfold Second. lia.
Qed.

Lemma sampler_cases (fps : Z) :
  0 < fps <= 1000000000 \/ ~ (0 < fps <= 1000000000).
Proof. lia. Qed.

(** X8.  The ticker is created at most once; it is stopped exactly once,
    by the last call of the sampler, when the sampler returns, whether with
    nil or with an error, and it is not stopped while the sampler runs. *)
Theorem ticker_stopped_on_return (fps : Z) (script : list SelectRound) :
  let r := StartScreenCap fps script in
  match status r with
  | Returned _ =>
      cap_count is_NewTicker (trace r) = 1%nat /\
      cap_count is_TickerStop (trace r) = 1%nat /\
      exists pre, trace r = pre ++ [TickerStop]
  | Running =>
      cap_count is_NewTicker (trace r) = 1%nat /\
      cap_count is_TickerStop (trace r) = 0%nat
  | Panicked => cap_count is_TickerStop (trace r) = 0%nat
  end.
Proof.
  intros r. subst r.
  destruct (screencap_loop_keeps script) as (K1 & _ & _).
  assert (N1 : cap_count is_NewTicker (calls (screencap_loop script)) = 0%nat).
  { apply (cap_count_none _ is_sampler_loop_call); [|exact K1].
    intros c; destruct c; simpl; congruence. }
  assert (N2 : cap_count is_TickerStop (calls (screencap_loop script)) = 0%nat).
  { apply (cap_count_none _ is_sampler_loop_call); [|exact K1].
    intros c; destruct c; simpl; congruence. }
  destruct (sampler_cases fps) as [Hfps|Hfps].
  - destruct (StartScreenCap_trace fps script Hfps)
      as [(_ & -> & ->)|(e & _ & -> & ->)].
    + change (GetDisplayBounds 0 :: NewTicker (Z.quot Second fps)
                :: calls (screencap_loop script))
        with ([GetDisplayBounds 0; NewTicker (Z.quot Second fps)]
                ++ calls (screencap_loop script)).
      rewrite !cap_count_app, N1, N2. split; reflexivity.
    + change (GetDisplayBounds 0 :: NewTicker (Z.quot Second fps)
                :: calls (screencap_loop script) ++ [TickerStop])
        with ([GetDisplayBounds 0; NewTicker (Z.quot Second fps)]
                ++ calls (screencap_loop script) ++ [TickerStop]).
      rewrite !cap_count_app, N1, N2. repeat split.
      eexists. rewrite app_assoc. reflexivity.
  - destruct (StartScreenCap_panicked fps script Hfps) as [-> [-> | ->]];
      reflexivity.
Qed.

(** X9.  The sampler forwards exactly the bitmaps it captured, in the order
    of capture, each once; only while it is still running can the bitmap
    captured last be waiting for the consumer to take it. *)
Theorem sampler_forwards_what_it_captures
    (fps : Z) (script : list SelectRound) :
  let r := StartScreenCap fps script in
  captured (trace r) = forwarded (trace r) \/
  (status r = Running /\
   exists img, captured (trace r) = forwarded (trace r) ++ [img]).
Proof.
  intros r. subst r.
  destruct (screencap_loop_keeps script) as (_ & _ & K3).
  destruct (sampler_cases fps) as [Hfps|Hfps].
  - destruct (StartScreenCap_trace fps script Hfps)
      as [(He & Hs & Ht)|(e & He & Hs & Ht)]; rewrite Ht, He in *.
    + change (GetDisplayBounds 0 :: NewTicker (Z.quot Second fps)
                :: calls (screencap_loop script))
        with ([GetDisplayBounds 0; NewTicker (Z.quot Second fps)]
                ++ calls (screencap_loop script)).
      rewrite captured_app, forwarded_app. cbn [captured forwarded flat_map app].
      destruct K3 as [K3 | [img K3]]; [left; exact K3|].
      right. split; [exact Hs|]. exists img. exact K3.
    + left.
      change (GetDisplayBounds 0 :: NewTicker (Z.quot Second fps)
                :: calls (screencap_loop script) ++ [TickerStop])
        with ([GetDisplayBounds 0; NewTicker (Z.quot Second fps)]
                ++ calls (screencap_loop script) ++ [TickerStop]).
      rewrite !captured_app, !forwarded_app, K3. reflexivity.
  - left. destruct (StartScreenCap_panicked fps script Hfps) as [_ [-> | ->]];
      reflexivity.
Qed.

(** X10.  The sampler captures once for every tick it takes from the
    ticker and never without one: a failed capture is not tried again, and
    a tick is never skipped. *)
Theorem one_capture_per_tick (fps : Z) (script : list SelectRound) :
  let r := StartScreenCap fps script in
  cap_count is_CaptureRect (trace r) = cap_count is_RecvTick (trace r).
Proof.
  intros r. subst r.
  destruct (screencap_loop_keeps script) as (_ & K2 & _).
  destruct (sampler_cases fps) as [Hfps|Hfps].
  - destruct (StartScreenCap_trace fps script Hfps)
      as [(_ & _ & ->)|(e & _ & _ & ->)].
    + change (GetDisplayBounds 0 :: NewTicker (Z.quot Second fps)
                :: calls (screencap_loop script))
        with ([GetDisplayBounds 0; NewTicker (Z.quot Second fps)]
                ++ calls (screencap_loop script)).
      rewrite !cap_count_app, K2. reflexivity.
    + change (GetDisplayBounds 0 :: NewTicker (Z.quot Second fps)
                :: calls (screencap_loop script) ++ [TickerStop])
        with ([GetDisplayBounds 0; NewTicker (Z.quot Second fps)]
                ++ calls (screencap_loop script) ++ [TickerStop]).
      rewrite !cap_count_app, K2. reflexivity.
  - destruct (StartScreenCap_panicked fps script Hfps) as [_ [-> | ->]];
      reflexivity.
Qed.

(** ** The orchestrator, continued *)

Lemma count_app (P : RecCall -> bool) (t1 t2 : list RecCall) :
  count P (t1 ++ t2) = (count P t1 + count P t2)%nat.
Proof. unfold count. rewrite filter_app, length_app. reflexivity. Qed.

Lemma count_none (P Q : RecCall -> bool) (t : list RecCall) :
  (forall c, Q c = true -> P c = false) ->
  forallb Q t = true -> count P t = 0%nat.
Proof.
  intros HPQ. induction t as [|c t IH]; simpl; [reflexivity|].
  intros H. apply andb_true_iff in H as [Hc Ht].
  unfold count in *. simpl. rewrite (HPQ c Hc). apply IH. exact Ht.
Qed.

Lemma count_existsb_false (P : RecCall -> bool) (t : list RecCall) :
  existsb P t = false -> count P t = 0%nat.
Proof.
  unfold count. induction t as [|c t IH]; simpl; [reflexivity|].
  destruct (P c); simpl; [discriminate | exact IH].
Qed.

Lemma flat_map_none {A B} (f : A -> list B) (Q : A -> bool) (t : list A) :
  (forall c, Q c = true -> f c = []) ->
  forallb Q t = true -> flat_map f t = [].
Proof.
  intros HQ. induction t as [|c t IH]; simpl; [reflexivity|].
  intros H. apply andb_true_iff in H as [Hc Ht].
  rewrite (HQ c Hc), (IH Ht). reflexivity.
Qed.

(** What one drain keeps: it calls nothing but its three calls, and it
    rescales and writes once for every packet it receives. *)
Lemma drain_keeps (enc st : Rational) (ds : list ReceiveOutcome) :
  forallb is_drain_call (calls (drain enc st ds)) = true /\
  (count is_WriteFrame (calls (drain enc st ds))
     = count is_packet_received (calls (drain enc st ds)) /\
   count is_RescaleTs (calls (drain enc st ds))
     = count is_packet_received (calls (drain enc st ds))).
Proof.
  unfold count.
  induction ds as [|[p q [w|]|e] rest (IH1 & IH2 & IH3)].
  - repeat split.
  - repeat split.
  - rewrite drain_Received_ok. cbn [calls]. cbn. rewrite IH1, IH2, IH3.
    repeat split.
  - destruct e; repeat split.
Qed.

Lemma is_drain_call_is_loop_call (t : list RecCall) :
  forallb is_drain_call t = true -> forallb is_loop_call t = true.
Proof.
  induction t as [|c t IH]; simpl; [reflexivity|].
  destruct c; simpl; try discriminate; exact IH.
Qed.

(** What the main loop keeps, whatever the frame counter it starts from. *)
Lemma record_loop_keeps (pts : Z) (enc st : Rational)
    (script : list LoopEvent) (fn : Z) :
  let g := record_loop pts enc st fn script in
  forallb is_loop_call (calls g) = true /\
  (count is_WriteFrame (calls g) = count is_packet_received (calls g) /\
   count is_RescaleTs (calls g) = count is_packet_received (calls g)) /\
  count is_PacketFree (deferred g) = count is_packet_allocated (calls g) /\
  (received_sizes (calls g) = submitted_sizes (calls g) \/
   exists size,
     received_sizes (calls g) = submitted_sizes (calls g) ++ [size]).
Proof.
  revert fn. induction script as [|ev rest IH]; intros fn g; subst g.
  - simpl. repeat split. left. reflexivity.
  - destruct ev as [|img conv send pk ds].
    + simpl. repeat split. left. reflexivity.
    + cbn [record_loop].
      set (res := ImageRGBAtoAVFrame img conv).
      destruct (ImageRGBAtoAVFrame_returns img conv) as [[e He]|He];
        fold res in He; rewrite He.
      * unfold bind; simpl. repeat split. right. eexists. reflexivity.
      * destruct send as [e|];
          [unfold bind; simpl; repeat split; left; reflexivity|].
        destruct pk;
          [|unfold bind; simpl; repeat split; left; reflexivity].
        specialize (IH (Int64.add fn 1)). cbv zeta in IH.
        set (l := record_loop pts enc st (Int64.add fn 1) rest) in *.
        destruct IH as (L1 & (L2 & L2') & L3 & L4).
        destruct (drain_keeps enc st ds) as (D1 & D2 & D2').
        pose proof (is_drain_call_is_loop_call _ D1) as D3.
        assert (D4 : count is_packet_allocated (calls (drain enc st ds)) = 0%nat).
        { apply (count_none _ is_drain_call); [|exact D1].
          intros c; destruct c; simpl; congruence. }
        assert (D5 : received_sizes (calls (drain enc st ds)) = []).
        { apply (flat_map_none _ is_drain_call); [|exact D1].
          intros c; destruct c; simpl; congruence. }
        assert (D6 : submitted_sizes (calls (drain enc st ds)) = []).
        { apply (flat_map_none _ is_drain_call); [|exact D1].
          intros c; destruct c; simpl; congruence. }
        destruct (drain_facts enc st ds) as (_ & _ & _ & _ & D7).
        set (d := drain enc st ds) in *.
        unfold received_sizes, submitted_sizes, count in *.
        destruct (ending d) as [[]|[]| |] eqn:Ed; [| | contradiction |].
        { destruct D7 as [D7 _].
          unfold bind; simpl. rewrite Ed. simpl.
          rewrite D7, !app_nil_r, !forallb_app, D3, L1.
          rewrite !flat_map_app, D5, D6.
          rewrite !filter_app, !length_app, D2, L2, D2', L2', D4, L3.
          repeat split.
          - rewrite Nat.add_comm. reflexivity.
          - simpl. destruct L4 as [-> | [size ->]];
              [left | right; exists size]; reflexivity. }
        { destruct D7 as (D7 & _).
          unfold bind; simpl. rewrite Ed. simpl.
          rewrite D7, !app_nil_r, D3, D2, D2', D4, D5, D6.
          repeat split. left. reflexivity. }
        { destruct D7 as [D7 _].
          unfold bind; simpl. rewrite Ed. simpl.
          rewrite D7, !app_nil_r, D3, D2, D2', D4, D5, D6.
          repeat split. left. reflexivity. }
Qed.

(** More on the startup that fails: what was acquired is released, nothing
    else is, and no loop call is made. *)
Lemma StartScreenRecording_failed_startup_releases (globalHeader : Z)
    (filename : string) (width height fps : Z) (s : Startup)
    (script : list LoopEvent) :
  startup_ok s = false ->
  let t := trace (StartScreenRecording globalHeader filename width height fps
                    s script) in
  count is_OutputCtxFree t = count is_output_acquired t /\
  count is_EncCtxFree t = count is_encoder_acquired t /\
  count is_IoCtxFree t = count is_io_acquired t /\
  (count is_output_acquired t <= 1)%nat /\
  (count is_encoder_acquired t <= 1)%nat /\
  (count is_io_acquired t <= 1)%nat /\
  count is_PacketFree t = 0%nat /\
  count is_packet_allocated t = 0%nat /\
  count is_WriteFrame t = count is_packet_received t /\
  count is_RescaleTs t = count is_packet_received t /\
  received_sizes t = [] /\ submitted_sizes t = [] /\
  existsb is_loop_call t = false.
Proof.
  intros Hok t. subst t.
  unfold StartScreenRecording, StartScreenRecording_body, NewH264EncoderCodec.
  unfold startup_ok in Hok.
  destruct (allocOutputFormatContext s);
    [repeat split; try reflexivity; cbn; lia|].
  destruct (FindEncoder (codecOutcomes s));
    [|repeat split; try reflexivity; cbn; lia].
  destruct (AllocCodecContext (codecOutcomes s));
    [|repeat split; try reflexivity; cbn; lia].
  destruct (newStream s);
    [|repeat split; try reflexivity; cbn; lia].
  destruct (encOpen s);
    [repeat split; try reflexivity; cbn; lia|].
  destruct (fromCodecContext s);
    [repeat split; try reflexivity; cbn; lia|].
  destruct (openIOContext s);
    [repeat split; try reflexivity; cbn; lia|].
  destruct (writeHeader s);
    [repeat split; try reflexivity; cbn; lia|].
  discriminate.
Qed.

Lemma startup_calls_counts (globalHeader : Z) (filename : string)
    (width height fps : Z) (s : Startup) :
  startup_ok s = true ->
  let t := startup_calls globalHeader filename width height fps s in
  count is_output_acquired t = 1%nat /\
  count is_encoder_acquired t = 1%nat /\
  count is_io_acquired t = 1%nat.
Proof.
  intros Hok t. subst t.
  destruct (startup_ok_inv s Hok)
    as (_ & [codec H2] & [c0 H3] & _).
  unfold startup_calls, NewH264EncoderCodec. rewrite H2, H3.
  repeat split.
Qed.


(** The four shapes of a session. *)
Lemma StartScreenRecording_shapes (globalHeader : Z) (filename : string)
    (width height fps : Z) (s : Startup) (script : list LoopEvent) :
  let r := StartScreenRecording globalHeader filename width height fps s
             script in
  let l := record_loop (Z.quot 90000 fps) (NewRational 1 90000)
                       (stream_time_base s) (Int64.wrap 0) script in
  (startup_ok s = false /\ status r = Returned tt) \/
  (startup_ok s = true /\ sampler_panics fps = true /\
   status r = Panicked /\
   trace r = startup_calls globalHeader filename width height fps s) \/
  (startup_ok s = true /\ fps <> 0 /\ status r = Running /\
   trace r = startup_calls globalHeader filename width height fps s
             ++ calls l) \/
  (startup_ok s = true /\ fps <> 0 /\ status r = Returned tt /\
   trace r = startup_calls globalHeader filename width height fps s
             ++ calls l ++ deferred l ++ finalizers s).
Proof.
  intros r l. subst r.
  destruct (startup_ok s) eqn:Hok.
  - right. destruct (sampler_panics fps) eqn:Hfps.
    + left.
      rewrite (StartScreenRecording_sampler_panics _ _ _ _ _ _ script Hok Hfps).
      repeat split.
    + right. pose proof (sampler_alive_not_zero fps Hfps) as Hnz.
      destruct (StartScreenRecording_running globalHeader filename width
                  height fps s script Hok Hfps)
        as [(_ & Hs & Ht)|(_ & Hs & Ht)]; [left | right]; auto.
  - left. split; [reflexivity|].
    apply StartScreenRecording_failed_startup. exact Hok.
Qed.


(** X12.  The sampler is started exactly once when every step of the
    startup succeeds, the new stream, the opening of the codec, the copy of
    its parameters and the header write included, and not at all
    otherwise. *)
Theorem sampler_started_once_iff_startup_ok (globalHeader : Z)
    (filename : string) (width height fps : Z) (s : Startup)
    (script : list LoopEvent) :
  count is_GoStartScreenCap
    (trace (StartScreenRecording globalHeader filename width height fps s
              script))
  = if startup_ok s then 1%nat else 0%nat.
Proof.
  pose proof (record_loop_keeps (Z.quot 90000 fps) (NewRational 1 90000)
                (stream_time_base s) script (Int64.wrap 0)) as (K1 & _).
  pose proof (record_loop_facts (Z.quot 90000 fps) (NewRational 1 90000)
                (stream_time_base s) script 0) as (_ & _ & _ & _ & L5 & _).
  cbv zeta in K1, L5.
  assert (C1 : count is_GoStartScreenCap
                 (calls (record_loop (Z.quot 90000 fps) (NewRational 1 90000)
                    (stream_time_base s) (Int64.wrap 0) script)) = 0%nat).
  { apply (count_none _ is_loop_call); [|exact K1].
    intros c; destruct c; simpl; congruence. }
  assert (C2 : count is_GoStartScreenCap
                 (deferred (record_loop (Z.quot 90000 fps) (NewRational 1 90000)
                    (stream_time_base s) (Int64.wrap 0) script)) = 0%nat).
  { apply (count_none _ is_loop_deferred); [|exact L5].
    intros c; destruct c; simpl; congruence. }
  destruct (StartScreenRecording_shapes globalHeader filename width height
              fps s script)
    as [(Hok & _)|[(Hok & _ & _ & ->)|[(Hok & _ & _ & ->)|(Hok & _ & _ & ->)]]];
    rewrite Hok.
  - apply count_existsb_false.
    apply StartScreenRecording_failed_startup. exact Hok.
  - reflexivity.
  - rewrite count_app, C1. reflexivity.
  - rewrite !count_app, C1, C2. reflexivity.
Qed.

(** The loop of a session, with what it keeps. *)
Lemma session_loop_keeps (fps : Z) (s : Startup) (script : list LoopEvent) :
  let l := record_loop (Z.quot 90000 fps) (NewRational 1 90000)
                       (stream_time_base s) (Int64.wrap 0) script in
  forallb is_loop_call (calls l) = true /\
  forallb is_loop_deferred (deferred l) = true /\
  (count is_WriteFrame (calls l) = count is_packet_received (calls l) /\
   count is_RescaleTs (calls l) = count is_packet_received (calls l)) /\
  count is_PacketFree (deferred l) = count is_packet_allocated (calls l) /\
  (received_sizes (calls l) = submitted_sizes (calls l) \/
   exists size,
     received_sizes (calls l) = submitted_sizes (calls l) ++ [size]).
Proof.
  intros l.
  pose proof (record_loop_keeps (Z.quot 90000 fps) (NewRational 1 90000)
                (stream_time_base s) script (Int64.wrap 0))
    as (K1 & K2 & K3 & K4).
  pose proof (record_loop_facts (Z.quot 90000 fps) (NewRational 1 90000)
                (stream_time_base s) script 0) as (_ & _ & _ & _ & L5 & _).
  exact (conj K1 (conj L5 (conj K2 (conj K3 K4)))).
Qed.

Lemma loop_call_not_cleanup (t : list RecCall) :
  forallb is_loop_call t = true -> existsb is_cleanup t = false.
Proof.
  induction t as [|c t IH]; simpl; [reflexivity|].
  destruct c; simpl; try discriminate; exact IH.
Qed.

(** X13.  While a session is running none of its deferred calls has run:
    nothing is released, no packet is freed and the trailer is not written.
    When the session has returned, the trailer was written exactly if the
    startup had succeeded, however the loop ended, a fatal error
    included. *)
Theorem deferred_calls_run_at_return_only (globalHeader : Z)
    (filename : string) (width height fps : Z) (s : Startup)
    (script : list LoopEvent) :
  let r := StartScreenRecording globalHeader filename width height fps s
             script in
  match status r with
  | Running => existsb is_cleanup (trace r) = false
  | Returned _ => existsb is_WriteTrailer (trace r) = startup_ok s
  | Panicked => True
  end.
Proof.
  intros r. subst r.
  destruct (session_loop_keeps fps s script) as (K1 & _).
  cbv zeta in K1.
  destruct (StartScreenRecording_shapes globalHeader filename width height
              fps s script)
    as [(Hok & Hs)|[(Hok & _ & -> & _)
                   |[(Hok & _ & -> & ->)|(Hok & _ & -> & ->)]]].
  - rewrite Hs, Hok.
    apply StartScreenRecording_failed_startup. exact Hok.
  - exact I.
  - rewrite existsb_app, (loop_call_not_cleanup _ K1). reflexivity.
  - rewrite Hok, !existsb_app. simpl. rewrite !orb_true_r. reflexivity.
Qed.

(** X14.  When a session has returned, each of the three contexts it
    acquired at startup (output, codec, I/O) was released exactly once, and
    none that it did not acquire; after a startup that succeeded, the last
    calls of the session are the stop of the signal context, the trailer
    write, and the three releases in the reverse order of acquisition. *)
Theorem contexts_released_once_on_return (globalHeader : Z)
    (filename : string) (width height fps : Z) (s : Startup)
    (script : list LoopEvent) :
  let r := StartScreenRecording globalHeader filename width height fps s
             script in
  status r = Returned tt ->
  count is_OutputCtxFree (trace r) = count is_output_acquired (trace r) /\
  count is_EncCtxFree (trace r) = count is_encoder_acquired (trace r) /\
  count is_IoCtxFree (trace r) = count is_io_acquired (trace r) /\
  (count is_output_acquired (trace r) <= 1)%nat /\
  (count is_encoder_acquired (trace r) <= 1)%nat /\
  (count is_io_acquired (trace r) <= 1)%nat /\
  (startup_ok s = true ->
   exists before,
     trace r = before ++ [Stop; WriteTrailer (writeTrailer s);
                          IoCtxFree; EncCtxFree; OutputCtxFree]).
Proof.
  intros r. subst r.
  destruct (session_loop_keeps fps s script) as (K1 & K2 & _).
  cbv zeta in K1, K2.
  destruct (StartScreenRecording_shapes globalHeader filename width height
              fps s script)
    as [(Hok & Hs)|[(Hok & _ & -> & _)
                   |[(Hok & _ & -> & _)|(Hok & _ & _ & ->)]]];
    try discriminate; intros _.
  - destruct (StartScreenRecording_failed_startup_releases globalHeader
                filename width height fps s script Hok)
      as (R1 & R2 & R3 & R4 & R5 & R6 & _).
    repeat split; try assumption. rewrite Hok. discriminate.
  - destruct (startup_calls_counts globalHeader filename width height fps s
                Hok) as (S1 & S2 & S3).
    set (l := record_loop (Z.quot 90000 fps) (NewRational 1 90000)
                (stream_time_base s) (Int64.wrap 0) script) in *.
    assert (Z1 : forall P, (forall c, is_loop_call c = true -> P c = false) ->
                 count P (calls l) = 0%nat)
      by (intros P HP; apply (count_none _ is_loop_call); assumption).
    assert (Z2 : forall P, (forall c, is_loop_deferred c = true -> P c = false) ->
                 count P (deferred l) = 0%nat)
      by (intros P HP; apply (count_none _ is_loop_deferred); assumption).
    rewrite !count_app, S1, S2, S3.
    rewrite !Z1, !Z2 by (intros c; destruct c; simpl; congruence).
    assert (F : count is_OutputCtxFree
                  (startup_calls globalHeader filename width height fps s)
                = 0%nat /\
                count is_EncCtxFree
                  (startup_calls globalHeader filename width height fps s)
                = 0%nat /\
                count is_IoCtxFree
                  (startup_calls globalHeader filename width height fps s)
                = 0%nat) by (repeat split).
    destruct F as (F1 & F2 & F3). rewrite F1, F2, F3.
    assert (G : count is_output_acquired (finalizers s) = 0%nat /\
                count is_encoder_acquired (finalizers s) = 0%nat /\
                count is_io_acquired (finalizers s) = 0%nat) by (repeat split).
    destruct G as (G1 & G2 & G3). rewrite G1, G2, G3.
    repeat split; try (cbn; lia).
    intros _. eexists. rewrite !app_assoc. reflexivity.
Qed.

(** X15.  One packet is allocated in each iteration that submits a frame,
    and none of them is freed before the session ends: while the session
    runs no packet has been freed, and when it has ended as many were freed
    as were allocated. *)
Theorem packets_freed_at_the_end_only (globalHeader : Z)
    (filename : string) (width height fps : Z) (s : Startup)
    (script : list LoopEvent) :
  let r := StartScreenRecording globalHeader filename width height fps s
             script in
  match status r with
  | Running => count is_PacketFree (trace r) = 0%nat
  | _ => count is_PacketFree (trace r) = count is_packet_allocated (trace r)
  end.
Proof.
  intros r. subst r.
  destruct (session_loop_keeps fps s script) as (K1 & K2 & _ & K4 & _).
  cbv zeta in K1, K2, K4.
  destruct (StartScreenRecording_shapes globalHeader filename width height
              fps s script)
    as [(Hok & Hs)|[(Hok & _ & -> & ->)
                   |[(Hok & _ & -> & ->)|(Hok & _ & -> & ->)]]].
  - rewrite Hs.
    destruct (StartScreenRecording_failed_startup_releases globalHeader
                filename width height fps s script Hok)
      as (_ & _ & _ & _ & _ & _ & R1 & R2 & _).
    rewrite R1, R2. reflexivity.
  - reflexivity.
  - rewrite count_app.
    rewrite (count_none is_PacketFree is_loop_call _
               ltac:(intros c; destruct c; simpl; congruence) K1).
    reflexivity.
  - rewrite !count_app, K4.
    rewrite (count_none is_PacketFree is_loop_call _
               ltac:(intros c; destruct c; simpl; congruence) K1).
    rewrite (count_none is_packet_allocated is_loop_deferred _
               ltac:(intros c; destruct c; simpl; congruence) K2).
    cbn. lia.
Qed.






Lemma increment_positive (fps : Z) :
  0 < fps <= 90000 -> 1 <= Z.quot 90000 fps.
Proof.
  intros H. rewrite Z.quot_div_nonneg by lia.
  apply Z.div_le_lower_bound; lia.
Qed.

(** X18.  For a frame rate between 1 and 90000 the timestamps of the frames
    submitted increase strictly, as long as they fit a signed 64-bit
    integer. *)
Theorem timestamps_strictly_increase (globalHeader : Z)
    (filename : string) (width height fps : Z) (s : Startup)
    (script : list LoopEvent) (i j : nat) (a b : Z) :
  let t := trace (StartScreenRecording globalHeader filename width height fps
                    s script) in
  0 < fps <= 90000 ->
  nth_error (stamps t) i = Some a ->
  nth_error (stamps t) j = Some b ->
  (i < j)%nat ->
  Int64.in_range (Z.of_nat j * Z.quot 90000 fps) ->
  a < b.
Proof.
  intros t Hfps Hi Hj Hlt Hr. subst t.
  pose proof (increment_positive fps Hfps) as Hinc.
  rewrite (submitted_frame_pts _ _ _ _ _ _ _ _ _ Hi).
  rewrite (submitted_frame_pts _ _ _ _ _ _ _ _ _ Hj).
  unfold frame_pts, Int64.mul. change (90 * 1000) with 90000.
  unfold Int64.in_range, Int64.half in Hr.
  rewrite !Int64_wrap_small
    by (unfold Int64.in_range, Int64.half; nia).
  nia.
Qed.

(** X19.  A frame rate above 90000 makes the increment zero: every frame
    of the session is stamped with 0. *)
Theorem timestamps_collapse_above_90000 (globalHeader : Z)
    (filename : string) (width height fps : Z) (s : Startup)
    (script : list LoopEvent) (k : nat) (ts : Z) :
  90000 < fps ->
  nth_error
    (stamps (trace (StartScreenRecording globalHeader filename width height
                      fps s script))) k = Some ts ->
  ts = 0.
Proof.
  intros Hfps Hk.
  rewrite (submitted_frame_pts _ _ _ _ _ _ _ _ _ Hk).
  unfold frame_pts, Int64.mul. change (90 * 1000) with 90000.
  rewrite Z.quot_small by lia. rewrite Z.mul_0_r. reflexivity.
Qed.

(** X20.  [main] records at 30 frames per second: it never panics, and the
    frames it submits are stamped 0, 3000, 6000 and so on, for as long as
    the product fits a signed 64-bit integer. *)
Theorem main_stamps_multiples_of_3000 (globalHeader : Z)
    (bounds : Rectangle) (s : Startup) (script : list LoopEvent)
    (k : nat) (ts : Z) :
  status (main globalHeader bounds s script) <> Panicked /\
  (nth_error (stamps (trace (main globalHeader bounds s script))) k = Some ts ->
   Z.of_nat k * 3000 < 2 ^ 63 ->
   ts = Z.of_nat k * 3000).
Proof.
  unfold main. split.
  - destruct (StartScreenRecording_shapes globalHeader "output.mp4"
                (RectDx bounds) (RectDy bounds) 30 s script)
      as [(_ & ->)|[(_ & H & _)|[(_ & _ & -> & _)|(_ & _ & -> & _)]]];
      discriminate.
  - intros Hk Hr.
    rewrite (submitted_frame_pts _ _ _ _ _ _ _ _ _ Hk).
    unfold frame_pts, Int64.mul.
    change (Z.quot (90 * 1000) 30) with 3000.
    apply Int64_wrap_small. unfold Int64.in_range, Int64.half. lia.
Qed.

(** X21.  Nothing of the main loop happens before the startup is complete:
    a session in which a bitmap is received, a frame submitted or a packet
    received or written began with the whole startup sequence, in the order
    of the source, up to the header write, the registration of the interrupt
    signal and the start of the sampler. *)
Theorem loop_runs_after_complete_startup (globalHeader : Z)
    (filename : string) (width height fps : Z) (s : Startup)
    (script : list LoopEvent) :
  let r := StartScreenRecording globalHeader filename width height fps s
             script in
  existsb is_loop_call (trace r) = true ->
  startup_ok s = true /\ fps <> 0 /\
  exists rest,
    trace r
    = [ SetupFFmpeg;
        AllocOutputFormatContext filename None;
        CallNewH264EncoderCodec width height fps (outputBitRate s)
          (NewH264EncoderCodec globalHeader width height fps
                               (outputBitRate s) (codecOutcomes s));
        NewStream true;
        EncOpen None;
        FromCodecContext None;
        SetTimeBase (NewRational 1 90000);
        OpenIOContext filename None;
        SetPb;
        WriteHeader None;
        NotifyContext;
        GoStartScreenCap fps ] ++ rest.
Proof.
  intros r. subst r.
  destruct (StartScreenRecording_shapes globalHeader filename width height
              fps s script)
    as [(Hok & _)|[(Hok & Hp & _ & ->)
                  |[(Hok & Hf & _ & ->)|(Hok & Hf & _ & ->)]]].
  - destruct (StartScreenRecording_failed_startup_releases globalHeader
                filename width height fps s script Hok)
      as (_ & _ & _ & _ & _ & _ & _ & _ & _ & _ & _ & _ & R).
    rewrite R. discriminate.
  - intros H. exfalso.
    destruct (startup_ok_inv s Hok) as (_ & [codec H2] & [c0 H3] & _).
    unfold startup_calls, NewH264EncoderCodec in H. rewrite H2, H3 in H.
    discriminate H.
  - intros _. repeat split; try assumption. eexists. reflexivity.
  - intros _. repeat split; try assumption. eexists. reflexivity.
Qed.

(** ** Further instances *)


Lemma NewH264EncoderCodec_passes_on_witness :
  Int32.in_range 1920 /\ Int32.in_range 1080 /\
  exists codecCtx,
    NewH264EncoderCodec 4194304 1920 1080 60 400000
      (mkCodecOutcomes (Some CodecH264)
         (Some (mkCodecContext 0 0 (NewRational 0 1) (NewRational 0 1)
                  PixelFormatNone 0 5)))
      = (Some CodecH264, Some codecCtx, None) /\
    CtxWidth codecCtx = 1920 /\ CtxHeight codecCtx = 1080 /\
    BitRate codecCtx = 400000 /\
    Z.testbit (Flags codecCtx) 2 = true.
Proof.
  assert (Hw : Int32.in_range 1920)
    by (vm_compute; split; [discriminate | reflexivity]).
  assert (Hh : Int32.in_range 1080)
    by (vm_compute; split; [discriminate | reflexivity]).
  split; [exact Hw|]. split; [exact Hh|].
  eexists. split; [reflexivity|].
  destruct (NewH264EncoderCodec_passes_on 4194304 1920 1080 60 400000
              (mkCodecOutcomes (Some CodecH264)
                 (Some (mkCodecContext 0 0 (NewRational 0 1) (NewRational 0 1)
                          PixelFormatNone 0 5)))
              CodecH264
              (mkCodecContext 0 0 (NewRational 0 1) (NewRational 0 1)
                 PixelFormatNone 0 5)
              _ eq_refl eq_refl)
    as (_ & _ & H3 & H4 & H5 & H6).
  exact (conj (H3 Hw) (conj (H4 Hh) (conj H5 (H6 2 eq_refl)))).
Defined.

Lemma StartScreenCap_panics_iff_witness :
  status (StartScreenCap 2000000000
            [mkSelectRound false true CaseTick (inl bitmap) true]) = Panicked.
Proof.
  apply (proj2 (StartScreenCap_panics_iff 2000000000
                  [mkSelectRound false true CaseTick (inl bitmap) true])).
  right. reflexivity.
Defined.


Lemma contexts_released_once_on_return_witness :
  status one_packet_session = Returned tt /\
  count is_OutputCtxFree (trace one_packet_session)
    = count is_output_acquired (trace one_packet_session) /\
  count is_EncCtxFree (trace one_packet_session)
    = count is_encoder_acquired (trace one_packet_session) /\
  count is_IoCtxFree (trace one_packet_session)
    = count is_io_acquired (trace one_packet_session).
Proof.
  split; [reflexivity|].
  destruct (contexts_released_once_on_return 4194304 "output.mp4" 1920 1080 30
              startup_all_ok
              [ EvImg bitmap conv_ok None true
                  [Received (mkPacket 0 []) (mkPacket 0 []) None;
         ReceiveError ErrEagain];
                EvDone ] eq_refl)
    as (H1 & H2 & H3 & _).
  exact (conj H1 (conj H2 H3)).
Defined.

Lemma timestamps_strictly_increase_witness : 3000 < 6000.
Proof.
  apply (timestamps_strictly_increase 4194304 "output.mp4" 1920 1080 30
           startup_all_ok (repeat (quiet_iteration bitmap) 3) 1 2 3000 6000);
    [lia | reflexivity | reflexivity | lia
     | vm_compute; split; [discriminate | reflexivity]].
Defined.

Lemma timestamps_collapse_above_90000_witness :
  nth_error
    (stamps (trace (StartScreenRecording 4194304 "output.mp4" 1920 1080 100000
                      startup_all_ok (repeat (quiet_iteration bitmap) 3))))
    2 = Some 0 /\ 0 = 0.
Proof.
  split; [reflexivity|].
  apply (timestamps_collapse_above_90000 4194304 "output.mp4" 1920 1080 100000
           startup_all_ok (repeat (quiet_iteration bitmap) 3) 2 0);
    [lia | reflexivity].
Defined.

Lemma main_stamps_multiples_of_3000_witness :
  nth_error
    (stamps (trace (main 4194304 (mkRectangle 0 0 1920 1080) startup_all_ok
                      (repeat (quiet_iteration bitmap) 3))))
    2 = Some 6000 /\
  6000 = Z.of_nat 2 * 3000.
Proof.
  split; [reflexivity|].
  apply (main_stamps_multiples_of_3000 4194304 (mkRectangle 0 0 1920 1080)
           startup_all_ok (repeat (quiet_iteration bitmap) 3) 2 6000);
    [reflexivity | vm_compute; reflexivity].
Defined.

Lemma loop_runs_after_complete_startup_witness :
  existsb is_loop_call (trace one_packet_session) = true /\
  startup_ok startup_all_ok = true /\ 30 <> 0.
Proof.
  split; [reflexivity|].
  destruct (loop_runs_after_complete_startup 4194304 "output.mp4" 1920 1080 30
              startup_all_ok
              [ EvImg bitmap conv_ok None true
                  [Received (mkPacket 0 []) (mkPacket 0 []) None;
         ReceiveError ErrEagain];
                EvDone ] eq_refl)
    as (H1 & H2 & _).
  split; assumption.
Defined.
